(** * Ava concierge: the confirmation-gated action pipeline

    A shallow embedding of [App.tsx] (the pending-action state and its
    handlers), [utils/taskUtils.ts] (storage load and the reminder scan) and
    the data declarations of [types.ts], followed by the properties of
    section 8 of the specification, of the runs in which acts fall between
    a model call and its answer; then of the loaders and savers of the
    four storage slots ([utils/calendarUtils.ts], [utils/paymentUtils.ts],
    [utils/goalUtils.ts]), the goal scan, the direct edits of [App.tsx] and
    the submit of [EditRecurringTaskDialog.tsx], with what the code shows of
    them.

    The TypeScript interfaces are erased at run time: the records that reach
    the handlers come unchecked from the model's function-call arguments
    ([fc.args as {...}]) and from [JSON.parse], so an entity is embedded as
    what it is at run time, a JavaScript object: a finite map from property
    names to primitive values.  Every handler is then total, as it is in the
    source. *)

From Stdlib Require Import Ascii QArith Qround Sorted.
From stdpp Require Import base option list strings pretty gmap fin_maps.

Open Scope Z_scope.

(** ** JavaScript values *)

(** The primitive values an entity property can hold.  Numbers that arrive
    through JSON are finite decimals, hence rationals. *)
Inductive JsVal : Type :=
| JUndefined
| JNull
| JBool (b : bool)
| JNum (q : Q)
| JStr (s : string).

(** An object: property name to value.  A property that is not in the map
    reads as [undefined]. *)
Abbreviation Obj := (gmap string JsVal).

Definition get (o : Obj) (k : string) : JsVal := default JUndefined (o !! k).

(** An object literal [{k1: v1, ..., kn: vn}] (the keys are distinct). *)
Definition obj (fields : list (string * JsVal)) : Obj := list_to_map fields.

(** [ToBoolean]: the test of [if (v)], [v ? a : b], [!v], [a || b]. *)
Definition truthy (v : JsVal) : bool :=
  match v with
  | JUndefined | JNull => false
  | JBool b => b
  | JNum q => negb (Qeq_bool q 0)
  | JStr s => negb (String.eqb s EmptyString)
  end.

(** [a === b] on primitives. *)
Definition strict_eq (a b : JsVal) : bool :=
  match a, b with
  | JUndefined, JUndefined => true
  | JNull, JNull => true
  | JBool x, JBool y => Bool.eqb x y
  | JNum x, JNum y => Qeq_bool x y
  | JStr x, JStr y => String.eqb x y
  | _, _ => false
  end.

(** [a ?? b]: [b] when [a] is [null] or [undefined]. *)
Definition nullish (a b : JsVal) : JsVal :=
  match a with
  | JUndefined | JNull => b
  | _ => a
  end.

(** [s || d] on an optional string ([undefined] and the empty string are
    falsy). *)
Definition or_else (s : option string) (d : string) : string :=
  match s with
  | Some t => if String.eqb t EmptyString then d else t
  | None => d
  end.

(** The double-quote character of the message templates. *)
Definition dq : string := String "034"%char EmptyString.

(** ** The host: browser built-ins the code calls

    Their results depend on the locale, the time zone or the engine; the
    development is parametric in them. *)
Class Host : Type := {
  (** [String(n)] for a number [n] *)
  Number_toString : Q → string;
  (** [s.trim()] *)
  String_trim : string → string;
  (** [new Date(v).getTime()]; [None] is the NaN of an invalid date *)
  Date_getTime : JsVal → option Z;
  (** the time value after [d.setHours(0, 0, 0, 0)]: local midnight of the
      day of [d] *)
  Date_startOfDay : Z → Z;
  (** [new Date(s).toLocaleString(undefined, options)] *)
  Date_toLocaleString : string → string;
  (** [new Intl.NumberFormat('en-US', {style: 'currency', currency: 'USD'}).format(v)] *)
  Intl_formatUSD : JsVal → string;
  (** [JSON.parse(s)] read as an array of objects; [None] when it throws *)
  JSON_parse : string → option (list Obj);
  (** the message of the [TypeError] raised by destructuring [undefined] *)
  TypeError_destructure : string;
}.

Section Values.
Context `{Host}.

(** [String(v)], the conversion of [`${v}`]. *)
Definition ToString (v : JsVal) : string :=
  match v with
  | JUndefined => "undefined"
  | JNull => "null"
  | JBool true => "true"
  | JBool false => "false"
  | JNum q => Number_toString q
  | JStr s => s
  end.
End Values.

(** ** types.ts *)

(** [enum MessageRole]. *)
Inductive MessageRole : Type := User | AI.

Record Source : Type := { uri : string; title : string }.

(** [interface Message].  The content is always produced by a string-valued
    expression of the source. *)
Record Message : Type := {
  role : MessageRole;
  content : string;
  groundingSources : option (list Source);
}.

(** The message [{role: MessageRole.AI, content}]. *)
Definition aiMessage (text : string) : Message :=
  {| role := AI; content := text; groundingSources := None |}.

(** [enum GoalStatus] and [enum RecurrenceType] are string enums; the values
    the handlers write. *)
Definition GoalStatus_NotStarted : JsVal := JStr "not-started".

(** The property names of the four entity interfaces ([CalendarEvent],
    [RecurringTask], [PaymentDetail], [Goal]) are used as written in
    [types.ts]: id, title, date, time, recurrence, lastExecutionDate,
    dueDate, completed, biller, amount, paymentDate, description,
    targetDate, progress, status, creationDate. *)

(** ** utils/taskUtils.ts *)

Section TaskUtils.
Context `{Host}.

Definition LOCAL_STORAGE_RECURRING_TASKS_KEY : string := "ava_recurring_tasks".

(** [localStorage]: a key-value store of strings. *)
Definition loadRecurringTasksFromLocalStorage
    (localStorage : gmap string string) : list Obj :=
  match localStorage !! LOCAL_STORAGE_RECURRING_TASKS_KEY with
  | None => []
  | Some serializedTasks =>
      match JSON_parse serializedTasks with
      | None => [] (* the catch branch *)
      | Some parsedTasks =>
          map (λ task : Obj,
                 <["completed" := nullish (get task "completed") (JBool false)]> task)
              parsedTasks
      end
  end.

(** [Math.ceil(a / b)] for integral [a] and positive [b]: time values are
    integers below 2^53 in magnitude, where the quotient of the double
    division rounds to the same ceiling as the exact one. *)
Definition ceil_div (a b : Z) : Z := - ((- a) / b).

Definition MS_PER_DAY : Z := 1000 * 60 * 60 * 24.

(** The body of the [forEach] callback of [getUpcomingDueDates]: what it
    leaves in [upcomingTasks].  [today] is the normalized time value of
    the scan's clock reading. *)
Definition scanTask (today daysThreshold : Z)
    (upcomingTasks : list Obj) (task : Obj) : list Obj :=
  if truthy (get task "completed") then upcomingTasks
  else if truthy (get task "dueDate") then
    match Date_startOfDay <$> Date_getTime (get task "dueDate") with
    | None => upcomingTasks (* NaN: both comparisons are false *)
    | Some dueDate =>
        let timeDiff := dueDate - today in
        let daysDiff := ceil_div timeDiff MS_PER_DAY in
        if (0 <=? daysDiff) && (daysDiff <=? daysThreshold) then
          upcomingTasks ++ [task]
        else if daysDiff <? 0 then
          if truthy (get task "lastExecutionDate") then
            match Date_getTime (get task "lastExecutionDate") with
            | Some lastExecutionDate =>
                if lastExecutionDate <? dueDate
                then upcomingTasks ++ [task] else upcomingTasks
            | None => upcomingTasks
            end
          else upcomingTasks ++ [task]
        else upcomingTasks
    end
  else upcomingTasks.

(** [getUpcomingDueDates(tasks, daysThreshold)], run when the clock reads
    [now]. *)
Definition getUpcomingDueDates (now : Z) (tasks : list Obj)
    (daysThreshold : Z) : list Obj :=
  let today := Date_startOfDay now in
  fold_left (scanTask today daysThreshold) tasks [].

(** The default of the optional parameter. *)
Definition DEFAULT_DAYS_THRESHOLD : Z := 7.

(** *** The scan as the specification words it *)

(** Days until due, when the task has a due date that parses. *)
Definition spec_daysUntilDue (now : Z) (task : Obj) : option Z :=
  if truthy (get task "dueDate") then
    (λ due, ceil_div (due - Date_startOfDay now) MS_PER_DAY)
      <$> (Date_startOfDay <$> Date_getTime (get task "dueDate"))
  else None.

Definition spec_lastExecutionAbsent (task : Obj) : bool :=
  negb (truthy (get task "lastExecutionDate")).

Definition spec_lastExecutionBeforeDue (task : Obj) : bool :=
  match Date_getTime (get task "lastExecutionDate"),
        Date_startOfDay <$> Date_getTime (get task "dueDate") with
  | Some last, Some due => last <? due
  | _, _ => false
  end.

(** "excludes completed tasks; includes a task if it has a due date and
    (0 ≤ days-until-due ≤ threshold) OR (days-until-due < 0 AND
    lastExecutionDate is absent or strictly before dueDate)". *)
Definition spec_reminderDue (now threshold : Z) (task : Obj) : bool :=
  negb (truthy (get task "completed")) &&
  match spec_daysUntilDue now task with
  | None => false
  | Some days =>
      ((0 <=? days) && (days <=? threshold))
      || ((days <? 0) &&
          (spec_lastExecutionAbsent task || spec_lastExecutionBeforeDue task))
  end.
End TaskUtils.

(** ** App.tsx: state *)

(** A function call as the handlers read it: [fc.id], [fc.name], [fc.args]
    (absent arguments make the destructuring throw). *)
Record FunctionCall : Type := {
  fc_id : JsVal;
  fc_name : JsVal;
  fc_args : option Obj;
}.

(** The values of [pendingActionType] other than [null]. *)
Inductive ActionType : Type :=
| event
| task
| payment
| goal
| confirmTaskCompletion.

Definition is_confirmTaskCompletion (t : option ActionType) : bool :=
  match t with Some confirmTaskCompletion => true | _ => false end.

(** The [useState] cells of [App] that the handlers below read or write, and
    [chatSessionRef.current] as the flag of whether a session exists.  The
    cells of the edit dialog, the sort order and the goal filter are not
    touched by these handlers. *)
Record State : Type := {
  messages : list Message;
  input : string;
  loading : bool;
  error : option string;
  calendarEvents : list Obj;
  recurringTasks : list Obj;
  paymentHistory : list Obj;
  goals : list Obj;
  showConfirmationDialog : bool;
  pendingActionDetails : option Obj;
  pendingActionType : option ActionType;
  pendingFunctionCall : option FunctionCall;
  chatSession : bool;
}.

Definition setMessages (f : list Message → list Message) (st : State) : State :=
  {| messages := f (messages st); input := input st; loading := loading st;
     error := error st; calendarEvents := calendarEvents st;
     recurringTasks := recurringTasks st; paymentHistory := paymentHistory st;
     goals := goals st; showConfirmationDialog := showConfirmationDialog st;
     pendingActionDetails := pendingActionDetails st;
     pendingActionType := pendingActionType st;
     pendingFunctionCall := pendingFunctionCall st;
     chatSession := chatSession st |}.

Definition setInput (v : string) (st : State) : State :=
  {| messages := messages st; input := v; loading := loading st;
     error := error st; calendarEvents := calendarEvents st;
     recurringTasks := recurringTasks st; paymentHistory := paymentHistory st;
     goals := goals st; showConfirmationDialog := showConfirmationDialog st;
     pendingActionDetails := pendingActionDetails st;
     pendingActionType := pendingActionType st;
     pendingFunctionCall := pendingFunctionCall st;
     chatSession := chatSession st |}.

Definition setLoading (v : bool) (st : State) : State :=
  {| messages := messages st; input := input st; loading := v;
     error := error st; calendarEvents := calendarEvents st;
     recurringTasks := recurringTasks st; paymentHistory := paymentHistory st;
     goals := goals st; showConfirmationDialog := showConfirmationDialog st;
     pendingActionDetails := pendingActionDetails st;
     pendingActionType := pendingActionType st;
     pendingFunctionCall := pendingFunctionCall st;
     chatSession := chatSession st |}.

Definition setError (v : option string) (st : State) : State :=
  {| messages := messages st; input := input st; loading := loading st;
     error := v; calendarEvents := calendarEvents st;
     recurringTasks := recurringTasks st; paymentHistory := paymentHistory st;
     goals := goals st; showConfirmationDialog := showConfirmationDialog st;
     pendingActionDetails := pendingActionDetails st;
     pendingActionType := pendingActionType st;
     pendingFunctionCall := pendingFunctionCall st;
     chatSession := chatSession st |}.

Definition setCalendarEvents (f : list Obj → list Obj) (st : State) : State :=
  {| messages := messages st; input := input st; loading := loading st;
     error := error st; calendarEvents := f (calendarEvents st);
     recurringTasks := recurringTasks st; paymentHistory := paymentHistory st;
     goals := goals st; showConfirmationDialog := showConfirmationDialog st;
     pendingActionDetails := pendingActionDetails st;
     pendingActionType := pendingActionType st;
     pendingFunctionCall := pendingFunctionCall st;
     chatSession := chatSession st |}.

Definition setRecurringTasks (f : list Obj → list Obj) (st : State) : State :=
  {| messages := messages st; input := input st; loading := loading st;
     error := error st; calendarEvents := calendarEvents st;
     recurringTasks := f (recurringTasks st); paymentHistory := paymentHistory st;
     goals := goals st; showConfirmationDialog := showConfirmationDialog st;
     pendingActionDetails := pendingActionDetails st;
     pendingActionType := pendingActionType st;
     pendingFunctionCall := pendingFunctionCall st;
     chatSession := chatSession st |}.

Definition setPaymentHistory (f : list Obj → list Obj) (st : State) : State :=
  {| messages := messages st; input := input st; loading := loading st;
     error := error st; calendarEvents := calendarEvents st;
     recurringTasks := recurringTasks st; paymentHistory := f (paymentHistory st);
     goals := goals st; showConfirmationDialog := showConfirmationDialog st;
     pendingActionDetails := pendingActionDetails st;
     pendingActionType := pendingActionType st;
     pendingFunctionCall := pendingFunctionCall st;
     chatSession := chatSession st |}.

Definition setGoals (f : list Obj → list Obj) (st : State) : State :=
  {| messages := messages st; input := input st; loading := loading st;
     error := error st; calendarEvents := calendarEvents st;
     recurringTasks := recurringTasks st; paymentHistory := paymentHistory st;
     goals := f (goals st); showConfirmationDialog := showConfirmationDialog st;
     pendingActionDetails := pendingActionDetails st;
     pendingActionType := pendingActionType st;
     pendingFunctionCall := pendingFunctionCall st;
     chatSession := chatSession st |}.

Definition setShowConfirmationDialog (v : bool) (st : State) : State :=
  {| messages := messages st; input := input st; loading := loading st;
     error := error st; calendarEvents := calendarEvents st;
     recurringTasks := recurringTasks st; paymentHistory := paymentHistory st;
     goals := goals st; showConfirmationDialog := v;
     pendingActionDetails := pendingActionDetails st;
     pendingActionType := pendingActionType st;
     pendingFunctionCall := pendingFunctionCall st;
     chatSession := chatSession st |}.

Definition setPendingActionDetails (v : option Obj) (st : State) : State :=
  {| messages := messages st; input := input st; loading := loading st;
     error := error st; calendarEvents := calendarEvents st;
     recurringTasks := recurringTasks st; paymentHistory := paymentHistory st;
     goals := goals st; showConfirmationDialog := showConfirmationDialog st;
     pendingActionDetails := v;
     pendingActionType := pendingActionType st;
     pendingFunctionCall := pendingFunctionCall st;
     chatSession := chatSession st |}.

Definition setPendingActionType (v : option ActionType) (st : State) : State :=
  {| messages := messages st; input := input st; loading := loading st;
     error := error st; calendarEvents := calendarEvents st;
     recurringTasks := recurringTasks st; paymentHistory := paymentHistory st;
     goals := goals st; showConfirmationDialog := showConfirmationDialog st;
     pendingActionDetails := pendingActionDetails st;
     pendingActionType := v;
     pendingFunctionCall := pendingFunctionCall st;
     chatSession := chatSession st |}.

Definition setPendingFunctionCall (v : option FunctionCall) (st : State) : State :=
  {| messages := messages st; input := input st; loading := loading st;
     error := error st; calendarEvents := calendarEvents st;
     recurringTasks := recurringTasks st; paymentHistory := paymentHistory st;
     goals := goals st; showConfirmationDialog := showConfirmationDialog st;
     pendingActionDetails := pendingActionDetails st;
     pendingActionType := pendingActionType st;
     pendingFunctionCall := v;
     chatSession := chatSession st |}.

(** [setMessages(prev => [...prev, m])]. *)
Definition appendMessage (m : Message) : State → State :=
  setMessages (λ prevMessages, prevMessages ++ [m]).

(** Handlers are sequences of state updates, applied left to right. *)
Notation "st |> f" := (f st) (at level 45, left associativity, only parsing).

(** ** App.tsx: the collaborators' answers

    The model call, the function response and the cancellation notice are
    the suspending operations.  The handlers that make them are given first
    as functions of the answer ([sendMessage], [handleConfirm],
    [handleCancel]), then cut at the call, with other acts free to fall
    between a call and its answer ([Act], [perform]). *)

(** A grounding chunk: [chunk.web?.uri], [chunk.web?.title],
    [chunk.maps?.uri], [chunk.maps?.title]. *)
Record GroundingChunk : Type := {
  web_uri : option string;
  web_title : option string;
  maps_uri : option string;
  maps_title : option string;
}.

(** What [sendMessage] reads of a [GenerateContentResponse]. *)
Record GenerateContentResponse : Type := {
  functionCalls : list FunctionCall;
  response_text : option string;
  groundingChunks : option (list GroundingChunk);
}.

(** [await generateContent(...)]: a response, or an exception with its
    message. *)
Inductive GenerateResult : Type :=
| Responds (response : GenerateContentResponse)
| Throws (message : string).

(** [chatSessionRef.current.sendMessage({message: [{functionResponse}]})]:
    [response.text], or a rejection. *)
Inductive FollowUp : Type :=
| FollowUpText (text : option string)
| FollowUpFails.

(** ** App.tsx: handlers *)

Section App.
Context `{Host}.

(** [formatEventDateTime] of [utils/calendarUtils.ts]; [toLocaleString]
    does not throw. *)
Definition formatEventDateTime (date time : JsVal) : string :=
  Date_toLocaleString (ToString date +:+ "T" +:+ ToString time).

(** [formatCurrency] of [utils/paymentUtils.ts]. *)
Definition formatCurrency (amount : JsVal) : string := Intl_formatUSD amount.

(** [Date.now().toString()] for the clock reading [now]. *)
Definition Date_now_toString (now : Z) : JsVal := JStr (pretty now).

(** The branch of [handleConfirm] selected by [pendingActionType]: the
    state after its updates, [resultMessage] and [aiResponseNeeded].
    [today] is [new Date().toISOString().split('T')[0]]. *)
Definition commit (now : Z) (today : string) (type : ActionType)
    (details : Obj) (st : State) : State * string * bool :=
  match type with
  | event =>
      let title := get details "title" in
      let date := get details "date" in
      let time := get details "time" in
      let newEvent := obj [("id", Date_now_toString now); ("title", title);
                           ("date", date); ("time", time)] in
      (st |> setCalendarEvents (λ prevEvents, prevEvents ++ [newEvent]),
       "Calendar event " +:+ dq +:+ ToString title +:+ dq +:+ " for "
         +:+ formatEventDateTime date time +:+ " successfully created.",
       true)
  | task =>
      let title := get details "title" in
      let recurrence := get details "recurrence" in
      let dueDate := get details "dueDate" in
      let newTask := obj [("id", Date_now_toString now); ("title", title);
                          ("recurrence", recurrence);
                          ("lastExecutionDate", JStr today);
                          ("dueDate", dueDate); ("completed", JBool false)] in
      (st |> setRecurringTasks (λ prevTasks, prevTasks ++ [newTask]),
       "Recurring task " +:+ dq +:+ ToString title +:+ dq +:+ " ("
         +:+ ToString recurrence +:+ ")"
         +:+ (if truthy dueDate then " with due date " +:+ ToString dueDate
              else EmptyString)
         +:+ " successfully created.",
       true)
  | payment =>
      let biller := get details "biller" in
      let amount := get details "amount" in
      let dueDate := get details "dueDate" in
      let newPayment := obj [("id", Date_now_toString now); ("biller", biller);
                             ("amount", amount); ("dueDate", dueDate);
                             ("paymentDate", JStr today)] in
      (st |> setPaymentHistory (λ prevPayments, prevPayments ++ [newPayment]),
       "Payment of " +:+ formatCurrency amount +:+ " to " +:+ ToString biller
         +:+ " (due " +:+ ToString dueDate +:+ ") has been initiated.",
       true)
  | goal =>
      let title := get details "title" in
      let description := get details "description" in
      let targetDate := get details "targetDate" in
      let newGoal := obj [("id", Date_now_toString now); ("title", title);
                          ("description", description);
                          ("targetDate", targetDate);
                          ("progress", JNum 0);
                          ("status", GoalStatus_NotStarted);
                          ("creationDate", JStr today)] in
      (st |> setGoals (λ prevGoals, prevGoals ++ [newGoal]),
       "Goal " +:+ dq +:+ ToString title +:+ dq +:+ " targeting "
         +:+ ToString targetDate +:+ " successfully created.",
       true)
  | confirmTaskCompletion =>
      let toggledTask := details in
      let resultMessage :=
        "Task " +:+ dq +:+ ToString (get toggledTask "title") +:+ dq
          +:+ " marked as "
          +:+ (if truthy (get toggledTask "completed") then "completed"
               else "not completed")
          +:+ "." in
      (st |> setRecurringTasks (λ prevTasks,
               map (λ task : Obj,
                      if strict_eq (get task "id") (get toggledTask "id")
                      then <["completed" := get toggledTask "completed"]> task
                      else task)
                   prevTasks)
          |> appendMessage (aiMessage resultMessage),
       resultMessage,
       false)
  end.

(** [handleConfirm], at clock reading [now] / [today], with the answer of
    the follow-up call should it be made. *)
Definition handleConfirm (now : Z) (today : string) (followUp : FollowUp)
    (st : State) : State :=
  match pendingActionDetails st, pendingActionType st with
  | Some details, Some type =>
      let st1 := st |> setShowConfirmationDialog false |> setLoading true in
      let '(st2, resultMessage, aiResponseNeeded) :=
        commit now today type details st1 in
      let st3 :=
        if aiResponseNeeded && bool_decide (is_Some (pendingFunctionCall st))
           && chatSession st
        then
          match followUp with
          | FollowUpText text =>
              st2 |> appendMessage (aiMessage (or_else text resultMessage))
          | FollowUpFails =>
              st2 |> setError (Some "Failed to communicate action result to AI.")
                  |> appendMessage
                       (aiMessage (resultMessage +:+
                          " (Error: Failed to get AI's follow-up message)"))
          end
        else st2 in
      st3 |> setPendingActionDetails None
          |> setPendingFunctionCall None
          |> setPendingActionType None
          |> setLoading false
  | _, _ => st
  end.

(** [handleCancel], with the answer of the cancellation notice should it be
    sent. *)
Definition handleCancel (followUp : FollowUp) (st : State) : State :=
  let st1 := st |> setShowConfirmationDialog false
                |> setPendingActionDetails None
                |> setPendingFunctionCall None
                |> setPendingActionType None
                |> setLoading true in
  if negb (is_confirmTaskCompletion (pendingActionType st))
     && chatSession st
     && bool_decide (is_Some (pendingFunctionCall st))
  then
    match followUp with
    | FollowUpText text =>
        st1 |> appendMessage (aiMessage (or_else text "Action cancelled."))
            |> setLoading false
    | FollowUpFails =>
        st1 |> appendMessage
                 (aiMessage
                    "Action cancelled (Error: Failed to get AI's follow-up message)")
            |> setLoading false
    end
  else
    st1 |> appendMessage (aiMessage "Action cancelled.")
        |> setLoading false.

(** The [catch] branch of [sendMessage] for an exception with message
    [message]. *)
Definition sendMessage_catch (message : string) (st : State) : State :=
  st |> setError (Some (or_else (Some message)
                          "Failed to get a response from AI."))
     |> appendMessage
          (aiMessage ("I'm sorry, I encountered an error: " +:+ message +:+ "."))
     |> setLoading false.

(** The four [set...] calls that open the confirmation dialog. *)
Definition openConfirmation (details : Obj) (type : ActionType)
    (fc : FunctionCall) (st : State) : State :=
  st |> setPendingActionDetails (Some details)
     |> setPendingActionType (Some type)
     |> setPendingFunctionCall (Some fc)
     |> setShowConfirmationDialog true.

(** [const {...} = fc.args as {...}] and the branch body [k]; destructuring
    [undefined] throws into the [catch] branch. *)
Definition withArgs (fc : FunctionCall) (k : Obj → State → State)
    (st : State) : State :=
  match fc_args fc with
  | Some args => k args st
  | None => sendMessage_catch TypeError_destructure st
  end.

Definition groundingSource (chunk : GroundingChunk) : Source :=
  {| uri := or_else (web_uri chunk) (or_else (maps_uri chunk) "#");
     title := or_else (web_title chunk) (or_else (maps_title chunk) "Source") |}.

(** The object literals [sendMessage] passes to [setPendingActionDetails],
    one per recognised function, built from [fc.args]. *)
Definition eventDraft (args : Obj) : Obj :=
  obj [("id", JStr EmptyString);
       ("title", get args "title");
       ("date", get args "date");
       ("time", get args "time")].

Definition taskDraft (args : Obj) : Obj :=
  obj [("id", JStr EmptyString);
       ("title", get args "title");
       ("recurrence", get args "recurrence");
       ("lastExecutionDate", JStr EmptyString);
       ("dueDate", get args "dueDate");
       ("completed", JBool false)].

Definition paymentDraft (args : Obj) : Obj :=
  obj [("id", JStr EmptyString);
       ("biller", get args "biller");
       ("amount", get args "amount");
       ("dueDate", get args "dueDate");
       ("paymentDate", JStr EmptyString)].

Definition goalDraft (args : Obj) : Obj :=
  obj [("id", JStr EmptyString);
       ("title", get args "title");
       ("description", get args "description");
       ("targetDate", get args "targetDate");
       ("progress", JNum 0);
       ("status", GoalStatus_NotStarted);
       ("creationDate", JStr EmptyString)].

(** [sendMessage(text)], with the answer of the model call. *)
Definition sendMessage (text : string) (result : GenerateResult)
    (st : State) : State :=
  if String.eqb (String_trim text) EmptyString || loading st then st
  else
    let st1 :=
      st |> setError None
         |> appendMessage {| role := User; content := text;
                             groundingSources := None |}
         |> setInput EmptyString
         |> setLoading true in
    match result with
    | Throws message => sendMessage_catch message st1
    | Responds response =>
        match functionCalls response with
        | fc :: _ =>
            if strict_eq (fc_name fc) (JStr "createCalendarEvent") then
              withArgs fc (λ args,
                openConfirmation (eventDraft args) event fc) st1
            else if strict_eq (fc_name fc) (JStr "createRecurringTask") then
              withArgs fc (λ args,
                openConfirmation (taskDraft args) task fc) st1
            else if strict_eq (fc_name fc) (JStr "payBill") then
              withArgs fc (λ args,
                openConfirmation (paymentDraft args) payment fc) st1
            else if strict_eq (fc_name fc) (JStr "createGoal") then
              withArgs fc (λ args,
                openConfirmation (goalDraft args) goal fc) st1
            else
              st1 |> appendMessage
                       (aiMessage
                          ("I received a request to perform " +:+ dq
                             +:+ ToString (fc_name fc) +:+ dq
                             +:+ ", but I'm not configured to directly execute it without confirmation yet."))
                  |> setLoading false
        | [] =>
            let aiContent :=
              or_else (response_text response) "I couldn't generate a text response." in
            let sources :=
              default [] (map groundingSource <$> groundingChunks response) in
            st1 |> appendMessage {| role := AI; content := aiContent;
                                    groundingSources := Some sources |}
                |> setLoading false
        end
    end.

(** [handleToggleTaskCompletion(taskId, currentCompletedStatus)]. *)
Definition handleToggleTaskCompletion (taskId currentCompletedStatus : JsVal)
    (st : State) : State :=
  match List.find (λ t : Obj, strict_eq (get t "id") taskId)
                  (recurringTasks st) with
  | Some taskToToggle =>
      let newStatus := JBool (negb (truthy currentCompletedStatus)) in
      openConfirmation
        (<["completed" := newStatus]> taskToToggle)
        confirmTaskCompletion
        {| fc_id := JStr ("toggle-" +:+ ToString taskId);
           fc_name := JStr "toggleTaskCompletion";
           fc_args := Some (obj [("taskId", taskId); ("newStatus", newStatus)]) |}
        st
  | None => st
  end.

(** The text of the reminder for a task. *)
Definition reminderText (t : Obj) : string :=
  "Reminder: Your recurring task " +:+ dq +:+ ToString (get t "title") +:+ dq
    +:+ " is due on " +:+ ToString (get t "dueDate") +:+ "!".

(** [checkAndPostReminders], run when the clock reads [now]. *)
Definition checkAndPostReminders (now : Z) (st : State) : State :=
  let upcoming :=
    getUpcomingDueDates now (recurringTasks st) DEFAULT_DAYS_THRESHOLD in
  if (0 <? length upcoming)%nat then
    let reminderMessages := map reminderText upcoming in
    let newReminders :=
      List.filter
        (λ msg, negb (existsb (λ m, String.eqb (content m) msg) (messages st)))
        reminderMessages in
    if (0 <? length newReminders)%nat then
      st |> setMessages (λ prevMessages,
              prevMessages ++ map aiMessage newReminders)
    else st
  else st.

(** The reminder effect: nothing is scanned while there is no task. *)
Definition reminderEffect (now : Z) (st : State) : State :=
  if Nat.eqb (length (recurringTasks st)) 0 then st
  else checkAndPostReminders now st.

(** The state after the mount effect: the four collections as loaded from
    storage, the welcome message, no pending action. *)
Definition initialState (events tasks payments goalList : list Obj)
    (chat : bool) : State :=
  {| messages :=
       [aiMessage "Hello! I'm Ava, your personal AI Concierge. How can I assist you with your administrative tasks today?"];
     input := EmptyString;
     loading := false;
     error := if chat then None
              else Some "Failed to initialize AI. Please check your API Key configuration.";
     calendarEvents := events;
     recurringTasks := tasks;
     paymentHistory := payments;
     goals := goalList;
     showConfirmationDialog := false;
     pendingActionDetails := None;
     pendingActionType := None;
     pendingFunctionCall := None;
     chatSession := chat |}.

(** The events of a run in which every model call is answered before
    anything else happens: each constructor is a handler together with the
    answer to the call it makes.  The runs in which something happens
    between a call and its answer are those of [Act] below. *)
Inductive Event : Type :=
| UserSends (text : string) (result : GenerateResult)
| UserToggles (taskId currentCompletedStatus : JsVal)
| UserConfirms (now : Z) (today : string) (followUp : FollowUp)
| UserCancels (followUp : FollowUp)
| ReminderTick (now : Z).

Definition step (st : State) (e : Event) : State :=
  match e with
  | UserSends text result => sendMessage text result st
  | UserToggles taskId currentCompletedStatus =>
      handleToggleTaskCompletion taskId currentCompletedStatus st
  | UserConfirms now today followUp => handleConfirm now today followUp st
  | UserCancels followUp => handleCancel followUp st
  | ReminderTick now => reminderEffect now st
  end.

Definition run (es : list Event) (st : State) : State := fold_left step es st.

(** *** The pending action, as an observer of the state sees it *)

(** The three cells of the pending action agree: all empty with the dialog
    closed, or all set with the dialog open. *)
Definition SingleSlot (st : State) : Prop :=
  match pendingActionDetails st, pendingActionType st,
        pendingFunctionCall st with
  | None, None, None => showConfirmationDialog st = false
  | Some _, Some _, Some _ => showConfirmationDialog st = true
  | _, _, _ => False
  end.

(** The pending actions a state holds. *)
Definition pendingActions (st : State) : list (ActionType * Obj) :=
  match pendingActionType st, pendingActionDetails st with
  | Some type, Some details => [(type, details)]
  | _, _ => []
  end.

(** The four recognised function names, with the action type and the
    draft of each. *)
Definition intentOf (name : string) : option (ActionType * (Obj → Obj)) :=
  if String.eqb name "createCalendarEvent" then Some (event, eventDraft)
  else if String.eqb name "createRecurringTask" then Some (task, taskDraft)
  else if String.eqb name "payBill" then Some (payment, paymentDraft)
  else if String.eqb name "createGoal" then Some (goal, goalDraft)
  else None.

(** [sendMessage] goes past its guard. *)
Definition accepted (text : string) (st : State) : Prop :=
  String_trim text ≠ EmptyString ∧ loading st = false.

(** The entity collection an action type commits to. *)
Definition collection (type : ActionType) : State → list Obj :=
  match type with
  | event => calendarEvents
  | task | confirmTaskCompletion => recurringTasks
  | payment => paymentHistory
  | goal => goals
  end.

(** The action types that create a record. *)
Definition creates (type : ActionType) : bool :=
  match type with confirmTaskCompletion => false | _ => true end.

End App.

(** ** Array.prototype.sort

    The sort is stable and orders by the sign of the comparator's result, a
    NaN result counting as 0.  For a consistent comparator this fixes the
    result, which is the one this insertion sort returns. *)

Section ArraySort.
Context {A : Type} (comparefn : A → A → Z).

Fixpoint sort_insert (x : A) (sorted : list A) : list A :=
  match sorted with
  | [] => [x]
  | y :: rest =>
      if comparefn x y <=? 0 then x :: sorted else y :: sort_insert x rest
  end.

Definition Array_sort (l : list A) : list A := foldr sort_insert [] l.
End ArraySort.

(** [a - b] on time values as a comparator result: NaN counts as 0. *)
Definition number_sub (a b : option Z) : Z :=
  match a, b with
  | Some x, Some y => x - y
  | _, _ => 0
  end.

(** [a || b] on values. *)
Definition js_or (a b : JsVal) : JsVal := if truthy a then a else b.

(** [JSON.stringify] of a collection followed by [localStorage.setItem];
    [None] when either throws. *)
Class Serializer : Type := {
  JSON_stringify : list Obj → option string;
}.

(** ** Storage: the four slots *)

Section Storage.
Context `{Host} `{Serializer}.

Definition LOCAL_STORAGE_KEY : string := "ava_calendar_events".
Definition LOCAL_STORAGE_PAYMENT_HISTORY_KEY : string := "ava_payment_history".
Definition LOCAL_STORAGE_GOALS_KEY : string := "ava_goals".

(** The body shared by the four [save...ToLocalStorage]: a failure to
    serialize is caught and the slot is left as it was. *)
Definition saveTo (key : string) (records : list Obj)
    (localStorage : gmap string string) : gmap string string :=
  match JSON_stringify records with
  | Some serialized => <[key := serialized]> localStorage
  | None => localStorage
  end.

Definition saveEventsToLocalStorage := saveTo LOCAL_STORAGE_KEY.
Definition saveRecurringTasksToLocalStorage :=
  saveTo LOCAL_STORAGE_RECURRING_TASKS_KEY.
Definition savePaymentHistoryToLocalStorage :=
  saveTo LOCAL_STORAGE_PAYMENT_HISTORY_KEY.
Definition saveGoalsToLocalStorage := saveTo LOCAL_STORAGE_GOALS_KEY.

(** [new Date(`${event.date}T${event.time}`)] as a time value. *)
Definition eventDateTime (event : Obj) : option Z :=
  Date_getTime (JStr (ToString (get event "date") +:+ "T"
                        +:+ ToString (get event "time"))).

(** [eventDateTime >= now]: false on an invalid date. *)
Definition notPast (now : Z) (event : Obj) : bool :=
  match eventDateTime event with
  | Some t => now <=? t
  | None => false
  end.

(** [loadEventsFromLocalStorage], run when the clock reads [now]. *)
Definition loadEventsFromLocalStorage (now : Z)
    (localStorage : gmap string string) : list Obj :=
  match localStorage !! LOCAL_STORAGE_KEY with
  | None => []
  | Some serializedEvents =>
      match JSON_parse serializedEvents with
      | None => []
      | Some parsedEvents =>
          Array_sort
            (λ a b, number_sub (eventDateTime a) (eventDateTime b))
            (List.filter (notPast now) parsedEvents)
      end
  end.

Definition loadPaymentHistoryFromLocalStorage
    (localStorage : gmap string string) : list Obj :=
  match localStorage !! LOCAL_STORAGE_PAYMENT_HISTORY_KEY with
  | None => []
  | Some serializedPayments =>
      match JSON_parse serializedPayments with
      | None => []
      | Some parsedPayments =>
          Array_sort
            (λ a b, number_sub (Date_getTime (get b "paymentDate"))
                               (Date_getTime (get a "paymentDate")))
            parsedPayments
      end
  end.

(** The defaults [loadGoalsFromLocalStorage] fills in; [today] is
    [new Date().toISOString().split('T')[0]]. *)
Definition withGoalDefaults (today : string) (g : Obj) : Obj :=
  <["creationDate" := js_or (get g "creationDate") (JStr today)]>
    (<["status" := nullish (get g "status") GoalStatus_NotStarted]>
       (<["progress" := nullish (get g "progress") (JNum 0)]> g)).

Definition loadGoalsFromLocalStorage (today : string)
    (localStorage : gmap string string) : list Obj :=
  match localStorage !! LOCAL_STORAGE_GOALS_KEY with
  | None => []
  | Some serializedGoals =>
      match JSON_parse serializedGoals with
      | None => []
      | Some parsedGoals =>
          Array_sort
            (λ a b, number_sub (Date_getTime (get a "targetDate"))
                               (Date_getTime (get b "targetDate")))
            (map (withGoalDefaults today) parsedGoals)
      end
  end.

(** *** utils/goalUtils.ts: the goal scan *)

Definition GoalStatus_InProgress : JsVal := JStr "in-progress".
Definition GoalStatus_Completed : JsVal := JStr "completed".
Definition GoalStatus_OnHold : JsVal := JStr "on-hold".
Definition GoalStatus_Cancelled : JsVal := JStr "cancelled".

(** The body of the [forEach] callback of [getUpcomingGoalReminders]. *)
Definition scanGoal (today daysThreshold : Z)
    (reminders : list Obj) (g : Obj) : list Obj :=
  if strict_eq (get g "status") GoalStatus_Completed
     || strict_eq (get g "status") GoalStatus_Cancelled
  then reminders
  else
    match Date_startOfDay <$> Date_getTime (get g "targetDate") with
    | None => reminders (* NaN: every comparison is false *)
    | Some targetDate =>
        let timeDiff := targetDate - today in
        let daysDiff := ceil_div timeDiff MS_PER_DAY in
        if ((0 <=? daysDiff) && (daysDiff <=? daysThreshold)) || (daysDiff <? 0)
        then reminders ++ [g] else reminders
    end.

Definition getUpcomingGoalReminders (now : Z) (goalList : list Obj)
    (daysThreshold : Z) : list Obj :=
  let today := Date_startOfDay now in
  fold_left (scanGoal today daysThreshold) goalList [].


(** The goal is neither completed nor cancelled. *)
Definition goalOpen (g : Obj) : bool :=
  negb (strict_eq (get g "status") GoalStatus_Completed)
  && negb (strict_eq (get g "status") GoalStatus_Cancelled).
End Storage.

(** ** App.tsx: goal reminders, the prompt, direct edits *)

(** [enum GoalFilter]. *)
Inductive GoalFilter : Type := All | Active | Completed.

(** [App]'s state with the cell of the edit dialog. *)
Record Editing : Type := {
  appState : State;
  editingTask : option Obj;
}.

Section AppViews.
Context `{Host}.

Definition goalReminderText (g : Obj) : string :=
  "Goal Reminder: Your goal " +:+ dq +:+ ToString (get g "title") +:+ dq
    +:+ " is "
    +:+ (if strict_eq (get g "status") GoalStatus_InProgress
         then "approaching its" else "past its")
    +:+ " target date of " +:+ ToString (get g "targetDate") +:+ "!".

(** [checkAndPostGoalReminders], run when the clock reads [now]. *)
Definition checkAndPostGoalReminders (now : Z) (st : State) : State :=
  let upcomingGoalReminders :=
    getUpcomingGoalReminders now (goals st) DEFAULT_DAYS_THRESHOLD in
  if (0 <? length upcomingGoalReminders)%nat then
    let reminderMessages := map goalReminderText upcomingGoalReminders in
    let newReminders :=
      List.filter
        (λ msg, negb (existsb (λ m, String.eqb (content m) msg) (messages st)))
        reminderMessages in
    if (0 <? length newReminders)%nat then
      st |> setMessages (λ prevMessages,
              prevMessages ++ map aiMessage newReminders)
    else st
  else st.

Definition goalReminderEffect (now : Z) (st : State) : State :=
  if Nat.eqb (length (goals st)) 0 then st
  else checkAndPostGoalReminders now st.

(** [getConfirmationMessage]. *)
Definition getConfirmationMessage (st : State) : string :=
  match pendingActionDetails st, pendingActionType st with
  | Some details, Some type =>
      match type with
      | event =>
          "Schedule event " +:+ dq +:+ ToString (get details "title") +:+ dq
            +:+ " for "
            +:+ formatEventDateTime (get details "date") (get details "time")
            +:+ "?"
      | task =>
          "Create recurring task " +:+ dq +:+ ToString (get details "title")
            +:+ dq +:+ " to repeat " +:+ ToString (get details "recurrence")
            +:+ (if truthy (get details "dueDate")
                 then " with due date " +:+ ToString (get details "dueDate")
                 else EmptyString)
            +:+ "?"
      | payment =>
          "Initiate payment of " +:+ formatCurrency (get details "amount")
            +:+ " to " +:+ ToString (get details "biller")
            +:+ " with due date " +:+ ToString (get details "dueDate") +:+ "?"
      | goal =>
          "Set goal: " +:+ dq +:+ ToString (get details "title") +:+ dq
            +:+ (if truthy (get details "description")
                 then " ('" +:+ ToString (get details "description") +:+ "')"
                 else EmptyString)
            +:+ " with target date " +:+ ToString (get details "targetDate")
            +:+ "?"
      | confirmTaskCompletion =>
          "Are you sure you want to mark " +:+ dq
            +:+ ToString (get details "title") +:+ dq +:+ " as "
            +:+ (if truthy (get details "completed") then "completed"
                 else "not completed")
            +:+ "?"
      end
  | _, _ => "Are you sure?"
  end.

(** [handleUpdateGoalStatus(goalId, newStatus)]. *)
Definition handleUpdateGoalStatus (goalId newStatus : JsVal) (st : State) : State :=
  st |> setGoals (λ prevGoals,
          map (λ g : Obj,
                 if strict_eq (get g "id") goalId
                 then <["status" := newStatus]> g else g)
              prevGoals).

(** [filteredGoals], the memo over [goals] and [goalFilter]. *)
Definition filteredGoals (goalFilter : GoalFilter) (goalList : list Obj)
    : list Obj :=
  List.filter
    (λ g : Obj,
       match goalFilter with
       | All => true
       | Active =>
           strict_eq (get g "status") GoalStatus_NotStarted
           || strict_eq (get g "status") GoalStatus_InProgress
           || strict_eq (get g "status") GoalStatus_OnHold
       | Completed => strict_eq (get g "status") GoalStatus_Completed
       end)
    goalList.

(** [handleEditTask], [handleSaveEditedTask], [handleCancelEditTask]. *)
Definition handleEditTask (t : Obj) (ed : Editing) : Editing :=
  {| appState := appState ed; editingTask := Some t |}.

Definition handleSaveEditedTask (updatedTask : Obj) (ed : Editing) : Editing :=
  {| appState :=
       appState ed |> setRecurringTasks (λ prevTasks,
         map (λ t : Obj,
                if strict_eq (get t "id") (get updatedTask "id")
                then updatedTask else t)
             prevTasks);
     editingTask := None |}.

Definition handleCancelEditTask (ed : Editing) : Editing :=
  {| appState := appState ed; editingTask := None |}.

(** [handleSubmit] of [EditRecurringTaskDialog]: the task it hands to
    [onSave], from the dialog's four cells. *)
Definition EditRecurringTaskDialog_handleSubmit (t : Obj)
    (editedTitle editedRecurrence editedDueDate editedCompleted : JsVal) : Obj :=
  <["completed" := editedCompleted]>
    (<["dueDate" := js_or editedDueDate JUndefined]>
       (<["recurrence" := editedRecurrence]>
          (<["title" := editedTitle]> t))).

(** The clock readings of the confirms of an event sequence. *)
Definition confirmTimes (es : list Event) : list Z :=
  omap (λ e, match e with UserConfirms now _ _ => Some now | _ => None end) es.

(** The ids of a collection. *)
Definition ids (records : list Obj) : list JsVal :=
  map (λ r : Obj, get r "id") records.


(** The ids of a collection are stamps of increasing clock readings, all
    before the readings still to come. *)
Definition StampedBefore (coming : list Z) (l : list Obj) : Prop :=
  ∃ ts, ids l = map (λ t : Z, JStr (pretty t)) ts
        ∧ StronglySorted Z.lt ts
        ∧ Forall (λ t, Forall (λ t', t < t') coming) ts.

(** The four entity collections of a state. *)
Definition collections (st : State)
    : list Obj * list Obj * list Obj * list Obj :=
  (calendarEvents st, recurringTasks st, paymentHistory st, goals st).
End AppViews.

(** ** App.tsx: model calls in flight

    [sendMessage], [handleConfirm] and [handleCancel] hand control back to
    the browser at their model call (the [await]s of [generateContent] and
    of the function response, and the promise chain of the cancellation
    notice) and go on when the answer arrives.  In between the page stays
    live and any other handler may run.  Each of the three is cut at that
    point: [_begin] is what runs at the click, [_resume] what runs on the
    answer.  A continuation reads the locals bound at the click
    ([resultMessage]); each of its state updates applies to the state of the
    moment it runs. *)

(** A call that has been sent and not answered yet, with the locals its
    continuation holds. *)
Inductive Call : Type :=
| GenerateContent
| FunctionResult (resultMessage : string)
| CancellationNotice.

(** The cells of [App] and the calls in flight. *)
Record World : Type := {
  screen : Editing;
  calls : list Call;
}.

(** What can happen next: a control is used, an answer arrives for the
    [i]-th call in flight (answers may arrive in any order), or one of the
    two reminder effects runs. *)
Inductive Act : Type :=
| Sends (text : string)
| Toggles (taskId currentCompletedStatus : JsVal)
| Confirms (now : Z) (today : string)
| Cancels
| ModelResponds (i : nat) (result : GenerateResult)
| ModelFollowsUp (i : nat) (followUp : FollowUp)
| TaskReminders (now : Z)
| GoalReminders (now : Z)
| EditsTask (t : Obj)
| SavesEditedTask (updatedTask : Obj)
| CancelsEdit
| UpdatesGoalStatus (goalId newStatus : JsVal).

(** The acts that call a handler which writes one of the four
    collections. *)
Definition writesEntities (a : Act) : bool :=
  match a with
  | Confirms _ _ | SavesEditedTask _ | UpdatesGoalStatus _ _ => true
  | _ => false
  end.

Section Interleaving.
Context `{Host}.

Definition app (w : World) : State := appState (screen w).

(** [sendMessage] up to its [await]; [None] when it returns at its
    guard. *)
Definition sendMessage_begin (text : string) (st : State) : option State :=
  if String.eqb (String_trim text) EmptyString || loading st then None
  else
    Some (st |> setError None
             |> appendMessage {| role := User; content := text;
                                 groundingSources := None |}
             |> setInput EmptyString
             |> setLoading true).

(** [sendMessage] from the answer of [generateContent] on. *)
Definition sendMessage_resume (result : GenerateResult) (st1 : State) : State :=
  match result with
  | Throws message => sendMessage_catch message st1
  | Responds response =>
      match functionCalls response with
      | fc :: _ =>
          if strict_eq (fc_name fc) (JStr "createCalendarEvent") then
            withArgs fc (λ args,
              openConfirmation (eventDraft args) event fc) st1
          else if strict_eq (fc_name fc) (JStr "createRecurringTask") then
            withArgs fc (λ args,
              openConfirmation (taskDraft args) task fc) st1
          else if strict_eq (fc_name fc) (JStr "payBill") then
            withArgs fc (λ args,
              openConfirmation (paymentDraft args) payment fc) st1
          else if strict_eq (fc_name fc) (JStr "createGoal") then
            withArgs fc (λ args,
              openConfirmation (goalDraft args) goal fc) st1
          else
            st1 |> appendMessage
                     (aiMessage
                        ("I received a request to perform " +:+ dq
                           +:+ ToString (fc_name fc) +:+ dq
                           +:+ ", but I'm not configured to directly execute it without confirmation yet."))
                |> setLoading false
      | [] =>
          let aiContent :=
            or_else (response_text response) "I couldn't generate a text response." in
          let sources :=
            default [] (map groundingSource <$> groundingChunks response) in
          st1 |> appendMessage {| role := AI; content := aiContent;
                                  groundingSources := Some sources |}
              |> setLoading false
      end
  end.

(** The last four statements of [handleConfirm]. *)
Definition handleConfirm_finish (st : State) : State :=
  st |> setPendingActionDetails None
     |> setPendingFunctionCall None
     |> setPendingActionType None
     |> setLoading false.

(** [handleConfirm] up to its [await], with [resultMessage] when the
    function response is sent; when it is not, the handler runs to its
    end. *)
Definition handleConfirm_begin (now : Z) (today : string) (st : State)
    : State * option string :=
  match pendingActionDetails st, pendingActionType st with
  | Some details, Some type =>
      let st1 := st |> setShowConfirmationDialog false |> setLoading true in
      let '(st2, resultMessage, aiResponseNeeded) :=
        commit now today type details st1 in
      if aiResponseNeeded && bool_decide (is_Some (pendingFunctionCall st))
         && chatSession st
      then (st2, Some resultMessage)
      else (handleConfirm_finish st2, None)
  | _, _ => (st, None)
  end.

(** [handleConfirm] from the answer of the function response on. *)
Definition handleConfirm_resume (followUp : FollowUp) (resultMessage : string)
    (st : State) : State :=
  match followUp with
  | FollowUpText text =>
      st |> appendMessage (aiMessage (or_else text resultMessage))
         |> handleConfirm_finish
  | FollowUpFails =>
      st |> setError (Some "Failed to communicate action result to AI.")
         |> appendMessage
              (aiMessage (resultMessage +:+
                 " (Error: Failed to get AI's follow-up message)"))
         |> handleConfirm_finish
  end.

(** [handleCancel] up to its return, and whether the cancellation notice
    was sent. *)
Definition handleCancel_begin (st : State) : State * bool :=
  let st1 := st |> setShowConfirmationDialog false
                |> setPendingActionDetails None
                |> setPendingFunctionCall None
                |> setPendingActionType None
                |> setLoading true in
  if negb (is_confirmTaskCompletion (pendingActionType st))
     && chatSession st
     && bool_decide (is_Some (pendingFunctionCall st))
  then (st1, true)
  else (st1 |> appendMessage (aiMessage "Action cancelled.")
            |> setLoading false,
        false).

(** The [then], [catch] and [finally] of the cancellation notice. *)
Definition handleCancel_resume (followUp : FollowUp) (st : State) : State :=
  match followUp with
  | FollowUpText text =>
      st |> appendMessage (aiMessage (or_else text "Action cancelled."))
         |> setLoading false
  | FollowUpFails =>
      st |> appendMessage
              (aiMessage
                 "Action cancelled (Error: Failed to get AI's follow-up message)")
         |> setLoading false
  end.

Definition onApp (f : State → State) (w : World) : World :=
  {| screen := {| appState := f (app w);
                  editingTask := editingTask (screen w) |};
     calls := calls w |}.

Definition onScreen (f : Editing → Editing) (w : World) : World :=
  {| screen := f (screen w); calls := calls w |}.

Definition calling (c : Call) (w : World) : World :=
  {| screen := screen w; calls := calls w ++ [c] |}.

Definition answered (i : nat) (w : World) : World :=
  {| screen := screen w; calls := delete i (calls w) |}.

(** One act.  An answer for a call that is not in flight changes
    nothing. *)
Definition perform (w : World) (a : Act) : World :=
  match a with
  | Sends text =>
      match sendMessage_begin text (app w) with
      | Some st1 => w |> onApp (λ _, st1) |> calling GenerateContent
      | None => w
      end
  | Toggles taskId currentCompletedStatus =>
      w |> onApp (handleToggleTaskCompletion taskId currentCompletedStatus)
  | Confirms now today =>
      match handleConfirm_begin now today (app w) with
      | (st2, Some resultMessage) =>
          w |> onApp (λ _, st2) |> calling (FunctionResult resultMessage)
      | (st', None) => w |> onApp (λ _, st')
      end
  | Cancels =>
      match handleCancel_begin (app w) with
      | (st1, true) => w |> onApp (λ _, st1) |> calling CancellationNotice
      | (st', false) => w |> onApp (λ _, st')
      end
  | ModelResponds i result =>
      match calls w !! i with
      | Some GenerateContent =>
          w |> answered i |> onApp (sendMessage_resume result)
      | _ => w
      end
  | ModelFollowsUp i followUp =>
      match calls w !! i with
      | Some (FunctionResult resultMessage) =>
          w |> answered i |> onApp (handleConfirm_resume followUp resultMessage)
      | Some CancellationNotice =>
          w |> answered i |> onApp (handleCancel_resume followUp)
      | _ => w
      end
  | TaskReminders now => w |> onApp (reminderEffect now)
  | GoalReminders now => w |> onApp (goalReminderEffect now)
  | EditsTask t => w |> onScreen (handleEditTask t)
  | SavesEditedTask updatedTask => w |> onScreen (handleSaveEditedTask updatedTask)
  | CancelsEdit => w |> onScreen handleCancelEditTask
  | UpdatesGoalStatus goalId newStatus =>
      w |> onApp (handleUpdateGoalStatus goalId newStatus)
  end.

Definition performAll (acts : list Act) (w : World) : World :=
  fold_left perform acts w.

(** The page after the mount effect: no dialog, no call in flight. *)
Definition mounted (events tasks payments goalList : list Obj) (chat : bool)
    : World :=
  {| screen := {| appState := initialState events tasks payments goalList chat;
                  editingTask := None |};
     calls := [] |}.

(** A record with this id and this value of [field] is in the list. *)
Definition shown (field : string) (id value : JsVal) (l : list Obj) : bool :=
  existsb (λ r : Obj, strict_eq (get r "id") id
                      && strict_eq (get r field) value) l.

(** The act is one the rendered page lets happen: the control it uses is
    rendered and not disabled ([disabled={loading || !input.trim() ||
    showConfirmationDialog}] on Send, the two dialogs rendered on their
    flags, a checkbox per task with its [completed], a status select per
    goal), and both dialogs are taken to cover the lists behind them, as
    the backdrop of [EditRecurringTaskDialog] does; an answer arrives only
    for a call in flight. *)
Definition offered (w : World) (a : Act) : bool :=
  let st := app w in
  let covered :=
    showConfirmationDialog st || bool_decide (is_Some (editingTask (screen w))) in
  match a with
  | Sends text =>
      negb (loading st || String.eqb (String_trim text) EmptyString
            || showConfirmationDialog st)
      && negb covered
  | Toggles taskId currentCompletedStatus =>
      shown "completed" taskId currentCompletedStatus (recurringTasks st)
      && negb covered
  | Confirms _ _ | Cancels => showConfirmationDialog st
  | ModelResponds i _ =>
      match calls w !! i with Some GenerateContent => true | _ => false end
  | ModelFollowsUp i _ =>
      match calls w !! i with
      | Some (FunctionResult _) | Some CancellationNotice => true
      | _ => false
      end
  | TaskReminders _ | GoalReminders _ => true
  | EditsTask t =>
      existsb (λ r : Obj, strict_eq (get r "id") (get t "id")) (recurringTasks st)
      && negb covered
  | SavesEditedTask _ | CancelsEdit =>
      bool_decide (is_Some (editingTask (screen w)))
  | UpdatesGoalStatus goalId _ =>
      existsb (λ g : Obj, strict_eq (get g "id") goalId) (goals st)
      && negb covered
  end.

(** Every act of the sequence is offered when its turn comes. *)
Fixpoint offeredAll (acts : list Act) (w : World) : bool :=
  match acts with
  | [] => true
  | a :: rest => offered w a && offeredAll rest (perform w a)
  end.

(** An event of [Event] as acts: the click, and the answer right after it.
    With no other call in flight the answer is that of call 0. *)
Definition actsOf (e : Event) : list Act :=
  match e with
  | UserSends text result => [Sends text; ModelResponds 0 result]
  | UserToggles taskId currentCompletedStatus =>
      [Toggles taskId currentCompletedStatus]
  | UserConfirms now today followUp =>
      [Confirms now today; ModelFollowsUp 0 followUp]
  | UserCancels followUp => [Cancels; ModelFollowsUp 0 followUp]
  | ReminderTick now => [TaskReminders now]
  end.

(** The coordinator has something to wait for: the user's answer to the
    dialog, or the answer of a call in flight. *)
Definition waiting (w : World) : Prop :=
  showConfirmationDialog (app w) = true ∨ calls w ≠ [].
End Interleaving.

(** ** A host to run the definitions on

    A UTC clock that knows a handful of dates, a trim of ASCII blanks and a
    storage parser that knows one document: enough to evaluate the handlers
    on the scenarios of the specification. *)

Definition is_blank (c : ascii) : bool :=
  let n := nat_of_ascii c in ((9 <=? n) && (n <=? 13))%nat || (n =? 32)%nat.

Fixpoint trim_start (s : string) : string :=
  match s with
  | String c rest => if is_blank c then trim_start rest else s
  | EmptyString => EmptyString
  end.

Definition trim_blanks (s : string) : string :=
  String.rev (trim_start (String.rev (trim_start s))).

Definition utc_time (v : JsVal) : option Z :=
  match v with
  | JStr s =>
      if String.eqb s "2025-03-01" then Some 1740787200000
      else if String.eqb s "2025-03-07" then Some 1741305600000
      else if String.eqb s "2025-03-10" then Some 1741564800000
      else if String.eqb s "2025-04-01" then Some 1743465600000
      else None
  | JNum q => Some (Qfloor q)
  | _ => None
  end.

(** Scenario C: the stored task list. *)
Definition waterPlants : Obj :=
  obj [("id", JStr "1"); ("title", JStr "Water plants");
       ("recurrence", JStr "weekly"); ("lastExecutionDate", JStr "2025-03-01");
       ("dueDate", JStr "2025-03-10"); ("completed", JBool false)].

(** A task stored before the [completed] property existed. *)
Definition legacyTask : Obj :=
  obj [("id", JStr "2"); ("title", JStr "Back up laptop");
       ("recurrence", JStr "monthly"); ("lastExecutionDate", JStr "2025-03-01")].

Definition fixtureHost : Host :=
  {| Number_toString := λ q, pretty (Qfloor q);
     String_trim := trim_blanks;
     Date_getTime := utc_time;
     Date_startOfDay := λ t, t / 86400000 * 86400000;
     Date_toLocaleString := λ s, s;
     Intl_formatUSD := λ v, match v with
                            | JNum q => "$" +:+ pretty (Qfloor q)
                            | _ => "$NaN"
                            end;
     JSON_parse := λ s, if String.eqb s "tasks.json"
                        then Some [waterPlants; legacyTask] else None;
     TypeError_destructure := "Cannot destructure property of undefined" |}.

(** Noon of 2025-03-01, UTC: nine days before the plants are due. *)
Definition noon_0301 : Z := 1740830400000.

(** Noon of 2025-03-07, UTC, and its date. *)
Definition noon_0307 : Z := 1741348800000.
Definition date_0307 : string := "2025-03-07".

(** Scenario A: the model asks for a calendar event. *)
Definition dentistArgs : Obj :=
  obj [("title", JStr "Dentist"); ("date", JStr "2025-03-10");
       ("time", JStr "09:00")].

Definition dentistCall : FunctionCall :=
  {| fc_id := JStr "call-1";
     fc_name := JStr "createCalendarEvent";
     fc_args := Some dentistArgs |}.

(** A createGoal call that also asks for a progress and a status. *)
Definition marathonArgs : Obj :=
  obj [("title", JStr "Run a marathon"); ("targetDate", JStr "2025-04-01");
       ("progress", JNum 80); ("status", JStr "completed")].

Definition marathonCall : FunctionCall :=
  {| fc_id := JStr "call-2";
     fc_name := JStr "createGoal";
     fc_args := Some marathonArgs |}.

(** A response that carries one function call and nothing else. *)
Definition callOf (fc : FunctionCall) : GenerateContentResponse :=
  {| functionCalls := [fc]; response_text := None; groundingChunks := None |}.

Definition answers (fc : FunctionCall) : GenerateResult := Responds (callOf fc).

(** The state after mount with an empty store, and with the task of
    scenario C. *)
Definition emptyStore : State := initialState [] [] [] [] true.
Definition plantStore : State := initialState [] [waterPlants] [] [] true.

(** The dialog is open on the dentist's appointment; on the marathon goal;
    on the toggle of the plants task. *)
Definition dentistPending : State :=
  @sendMessage fixtureHost "Book the dentist" (answers dentistCall) emptyStore.
Definition marathonPending : State :=
  @sendMessage fixtureHost "I want to run a marathon" (answers marathonCall)
    emptyStore.
Definition plantTogglePending : State :=
  @handleToggleTaskCompletion fixtureHost (JStr "1") (JBool false) plantStore.

(** The storage slot of the recurring tasks holds the one known document. *)
Definition taskStorage : gmap string string :=
  {[ "ava_recurring_tasks" := "tasks.json" ]}.

(** A second appointment the model asks for. *)
Definition checkupArgs : Obj :=
  obj [("title", JStr "Checkup"); ("date", JStr "2025-04-01");
       ("time", JStr "10:00")].

Definition checkupCall : FunctionCall :=
  {| fc_id := JStr "call-3";
     fc_name := JStr "createCalendarEvent";
     fc_args := Some checkupArgs |}.

(** The records of the two appointments when both are confirmed at noon. *)
Definition dentistEvent : Obj :=
  obj [("id", JStr "1741348800000"); ("title", JStr "Dentist");
       ("date", JStr "2025-03-10"); ("time", JStr "09:00")].

Definition checkupEvent : Obj :=
  obj [("id", JStr "1741348800000"); ("title", JStr "Checkup");
       ("date", JStr "2025-04-01"); ("time", JStr "10:00")].

(** The dentist's appointment is asked for and confirmed at noon, then the
    checkup is asked for. *)
Definition twoAppointments : list Event :=
  [UserSends "Book the dentist" (answers dentistCall);
   UserConfirms noon_0307 date_0307 (FollowUpText (Some "Done."));
   UserSends "Book a checkup" (answers checkupCall)].

(** A host that also knows three times of day and the documents of the
    other three slots. *)
Definition utc_time_of_day (v : JsVal) : option Z :=
  match v with
  | JStr s =>
      if String.eqb s "2025-03-01T08:00" then Some 1740816000000
      else if String.eqb s "2025-03-10T09:00" then Some 1741597200000
      else if String.eqb s "2025-04-01T10:00" then Some 1743501600000
      else utc_time v
  | _ => utc_time v
  end.

Definition pastEvent : Obj :=
  obj [("id", JStr "1740000000000"); ("title", JStr "Kick-off");
       ("date", JStr "2025-03-01"); ("time", JStr "08:00")].

Definition brokenEvent : Obj :=
  obj [("id", JStr "1740000000001"); ("title", JStr "Lunch");
       ("date", JStr "soon"); ("time", JStr "12:00")].

Definition storedEvents : list Obj :=
  [checkupEvent; pastEvent; dentistEvent; brokenEvent].

Definition rentPayment : Obj :=
  obj [("id", JStr "1740830400000"); ("biller", JStr "Landlord");
       ("amount", JNum 900); ("dueDate", JStr "2025-03-01");
       ("paymentDate", JStr "2025-03-01")].

Definition powerPayment : Obj :=
  obj [("id", JStr "1741348800000"); ("biller", JStr "Acme Power");
       ("amount", JNum 42); ("dueDate", JStr "2025-04-01");
       ("paymentDate", JStr "2025-03-07")].

Definition storedPayments : list Obj := [rentPayment; powerPayment].

(** A goal stored before progress, status and creation date existed, and a
    goal stored with them. *)
Definition marathonGoal : Obj :=
  obj [("id", JStr "g1"); ("title", JStr "Run a marathon");
       ("targetDate", JStr "2025-04-01")].

Definition thesisGoal : Obj :=
  obj [("id", JStr "g2"); ("title", JStr "Hand in the thesis");
       ("targetDate", JStr "2025-03-10"); ("progress", JNum 40);
       ("status", JStr "in-progress"); ("creationDate", JStr "2025-03-01")].

Definition storedGoals : list Obj := [marathonGoal; thesisGoal].

Definition storeHost : Host :=
  {| Number_toString := λ q, pretty (Qfloor q);
     String_trim := trim_blanks;
     Date_getTime := utc_time_of_day;
     Date_startOfDay := λ t, t / 86400000 * 86400000;
     Date_toLocaleString := λ s, s;
     Intl_formatUSD := λ v, match v with
                            | JNum q => "$" +:+ pretty (Qfloor q)
                            | _ => "$NaN"
                            end;
     JSON_parse := λ s,
       if String.eqb s "tasks.json" then Some [waterPlants; legacyTask]
       else if String.eqb s "events.json" then Some storedEvents
       else if String.eqb s "payments.json" then Some storedPayments
       else if String.eqb s "goals.json" then Some storedGoals
       else None;
     TypeError_destructure := "Cannot destructure property of undefined" |}.

(** A serializer that knows the document of the two stored tasks. *)
Definition storeSerializer : Serializer :=
  {| JSON_stringify := λ records,
       if (length records =? 2)%nat then Some "tasks.json" else None |}.

Definition fullStorage : gmap string string :=
  {[ "ava_calendar_events" := "events.json";
     "ava_payment_history" := "payments.json";
     "ava_goals" := "goals.json" ]}.

(** A store whose goal slot was cut short. *)
Definition corruptStorage : gmap string string := {[ "ava_goals" := "[{" ]}.

(** The state after mount with the two goals. *)
Definition goalStore : State := initialState [] [] [] storedGoals true.

(** A function call the coordinator does not know, and a known one that
    carries no argument object. *)
Definition unknownCall : FunctionCall :=
  {| fc_id := JStr "call-4"; fc_name := JStr "deleteEverything";
     fc_args := Some ∅ |}.

Definition bareCall : FunctionCall :=
  {| fc_id := JStr "call-5"; fc_name := JStr "createGoal"; fc_args := None |}.

(** The two appointments confirmed one millisecond apart. *)
Definition twoConfirms : list Event :=
  twoAppointments
  ++ [UserConfirms (noon_0307 + 1) date_0307 (FollowUpText None)].

(** The page after mount with the task of scenario C. *)
Definition plantPage : World := mounted [] [waterPlants] [] [] true.

(** The dentist's appointment is confirmed and its function response is in
    flight; the plants task is ticked meanwhile; then the answer arrives. *)
Definition confirmInFlight : list Act :=
  [Sends "Book the dentist";
   ModelResponds 0 (answers dentistCall);
   Confirms noon_0307 date_0307].

Definition toggledMeanwhile : list Act :=
  confirmInFlight ++ [Toggles (JStr "1") (JBool false)].

Definition answeredAfterToggle : list Act :=
  toggledMeanwhile ++ [ModelFollowsUp 0 (FollowUpText (Some "Booked."))].

(** Acts that call none of the writing handlers: a message is sent, a task
    is ticked while the model call is in flight, the intent arrives and is
    cancelled, the notice is answered, both reminder effects run and the
    editor is opened and closed. *)
Definition noWriter : list Act :=
  [Sends "Book the dentist";
   Toggles (JStr "1") (JBool false);
   ModelResponds 0 (answers dentistCall);
   Cancels;
   ModelFollowsUp 0 (FollowUpText None);
   TaskReminders noon_0307;
   GoalReminders noon_0307;
   EditsTask waterPlants;
   CancelsEdit].

(** * Properties *)

(** ** Objects *)

Lemma get_insert_eq (o : Obj) (k : string) (v : JsVal) :
  get (<[k := v]> o) k = v.
Proof. unfold get. by rewrite lookup_insert_eq. Qed.

Lemma get_insert_ne (o : Obj) (k k' : string) (v : JsVal) :
  k ≠ k' → get (<[k := v]> o) k' = get o k'.
Proof. intros Hne. unfold get. by rewrite lookup_insert_ne. Qed.

Lemma obj_cons (k : string) (v : JsVal) (fields : list (string * JsVal)) :
  obj ((k, v) :: fields) = <[k := v]> (obj fields).
Proof. done. Qed.

(** Reads a property of an object literal. *)
Ltac get_obj :=
  repeat first [rewrite obj_cons | rewrite get_insert_eq
               | rewrite get_insert_ne by done].

Lemma strict_eq_JStr (a b : string) :
  strict_eq (JStr a) (JStr b) = true ↔ a = b.
Proof. simpl. apply String.eqb_eq. Qed.

Lemma filter_none {A} (f : A → bool) (l : list A) :
  (∀ x, In x l → f x = false) → List.filter f l = [].
Proof.
  induction l as [|x l IH]; intros Hall; [done|]. simpl.
  rewrite (Hall x) by (by left). apply IH. intros y Hy. apply Hall. by right.
Qed.

(** ** The reminder scan and the storage load *)

Section TaskUtilsFacts.
Context `{Host}.

(** One step of the scan appends the task exactly when the specification's
    predicate holds of it. *)
Lemma scanTask_spec (now threshold : Z) (acc : list Obj) (t : Obj) :
  scanTask (Date_startOfDay now) threshold acc t
  = acc ++ (if spec_reminderDue now threshold t then [t] else []).
Proof.
  unfold scanTask, spec_reminderDue, spec_daysUntilDue,
    spec_lastExecutionAbsent, spec_lastExecutionBeforeDue.
  destruct (truthy (get t "completed")); simpl; [by rewrite app_nil_r|].
  destruct (truthy (get t "dueDate")); simpl; [|by rewrite app_nil_r].
  destruct (Date_getTime (get t "dueDate")) as [due|]; simpl;
    [|by rewrite app_nil_r].
  set (d := ceil_div (Date_startOfDay due - Date_startOfDay now) MS_PER_DAY).
  destruct ((0 <=? d) && (d <=? threshold)); simpl; [done|].
  destruct (d <? 0); simpl; [|by rewrite app_nil_r].
  destruct (truthy (get t "lastExecutionDate")); simpl; [|done].
  destruct (Date_getTime (get t "lastExecutionDate")) as [l|]; simpl;
    [|by rewrite app_nil_r].
  destruct (l <? Date_startOfDay due); simpl; [done|by rewrite app_nil_r].
Qed.

Lemma scan_fold (now threshold : Z) (tasks acc : list Obj) :
  fold_left (scanTask (Date_startOfDay now) threshold) tasks acc
  = acc ++ List.filter (spec_reminderDue now threshold) tasks.
Proof.
  revert acc. induction tasks as [|t tasks IH]; intros acc; simpl.
  - by rewrite app_nil_r.
  - rewrite IH, scanTask_spec.
    destruct (spec_reminderDue now threshold t); simpl.
    + by rewrite <- app_assoc.
    + by rewrite app_nil_r.
Qed.

Lemma spec_reminderDue_not_completed (now threshold : Z) (t : Obj) :
  spec_reminderDue now threshold t = true →
  truthy (get t "completed") = false ∧ truthy (get t "dueDate") = true.
Proof.
  unfold spec_reminderDue, spec_daysUntilDue.
  destruct (truthy (get t "completed")); simpl; [done|].
  destruct (truthy (get t "dueDate")); simpl; done.
Qed.


(** C10. When the storage slot holds a list that parses, loading the
    recurring tasks keeps its length and its order: the record at each
    position is the stored record at that position with every property
    other than [completed] unchanged, and [completed] set to false when it
    is missing (undefined or null) and kept otherwise. *)
Theorem C10_load_preserves_length_and_order
    (localStorage : gmap string string) (serialized : string)
    (stored : list Obj) :
  localStorage !! LOCAL_STORAGE_RECURRING_TASKS_KEY = Some serialized →
  JSON_parse serialized = Some stored →
  let loaded := loadRecurringTasksFromLocalStorage localStorage in
  length loaded = length stored
  ∧ ∀ (i : nat) (t : Obj), stored !! i = Some t →
      ∃ t', loaded !! i = Some t'
            ∧ (∀ k, k ≠ "completed" → t' !! k = t !! k)
            ∧ get t' "completed"
              = match get t "completed" with
                | JUndefined | JNull => JBool false
                | c => c
                end.
Proof.
  intros Hget Hparse. unfold loadRecurringTasksFromLocalStorage.
  rewrite Hget, Hparse. simpl. split.
  - by rewrite length_map.
  - intros i t Hi.
    exists (<["completed" := nullish (get t "completed") (JBool false)]> t).
    split; [|split].
    + change (map ?f stored) with (f <$> stored).
      by rewrite list_lookup_fmap, Hi.
    + intros k Hk. by rewrite lookup_insert_ne.
    + rewrite get_insert_eq. by destruct (get t "completed").
Qed.
End TaskUtilsFacts.

(** ** The confirmation coordinator *)

Section AppFacts.
Context `{Host}.

(** *** Every handler keeps the three cells in agreement *)

Lemma openConfirmation_SingleSlot (details : Obj) (type : ActionType)
    (fc : FunctionCall) (st : State) :
  SingleSlot (openConfirmation details type fc st).
Proof. done. Qed.

Lemma withArgs_SingleSlot (fc : FunctionCall) (details : Obj → Obj)
    (type : ActionType) (st : State) :
  SingleSlot st →
  SingleSlot (withArgs fc (λ args, openConfirmation (details args) type fc) st).
Proof.
  intros Hst. unfold withArgs. destruct (fc_args fc); [done|].
  unfold SingleSlot in *. by simpl.
Qed.

Lemma sendMessage_SingleSlot (text : string) (result : GenerateResult)
    (st : State) :
  SingleSlot st → SingleSlot (sendMessage text result st).
Proof.
  intros Hst. unfold sendMessage.
  destruct (String.eqb (String_trim text) EmptyString || loading st); [done|].
  destruct result as [response|message]; [|exact Hst].
  destruct (functionCalls response) as [|fc rest]; [exact Hst|].
  repeat (case_match; [by apply withArgs_SingleSlot|]).
  exact Hst.
Qed.

Lemma handleToggleTaskCompletion_SingleSlot (taskId cur : JsVal) (st : State) :
  SingleSlot st → SingleSlot (handleToggleTaskCompletion taskId cur st).
Proof.
  intros Hst. unfold handleToggleTaskCompletion.
  destruct (List.find _ _); [apply openConfirmation_SingleSlot|exact Hst].
Qed.

(** After a confirm that went through, and after any cancel, the three
    cells are empty and the dialog is closed. *)
Lemma handleConfirm_clears (now : Z) (today : string) (followUp : FollowUp)
    (st : State) (details : Obj) (type : ActionType) :
  pendingActionDetails st = Some details →
  pendingActionType st = Some type →
  let st' := handleConfirm now today followUp st in
  pendingActionDetails st' = None ∧ pendingActionType st' = None
  ∧ pendingFunctionCall st' = None ∧ showConfirmationDialog st' = false
  ∧ loading st' = false.
Proof.
  intros Hd Ht. unfold handleConfirm. rewrite Hd, Ht.
  destruct type; simpl;
    repeat (case_match; simpl); done.
Qed.

(** Without a pending action [handleConfirm] returns at its guard. *)
Lemma handleConfirm_without_pending (now : Z) (today : string)
    (followUp : FollowUp) (st : State) :
  pendingActionDetails st = None ∨ pendingActionType st = None →
  handleConfirm now today followUp st = st.
Proof.
  intros [Hn|Hn]; unfold handleConfirm; rewrite Hn; [done|].
  by destruct (pendingActionDetails st).
Qed.

Lemma handleCancel_clears (followUp : FollowUp) (st : State) :
  let st' := handleCancel followUp st in
  pendingActionDetails st' = None ∧ pendingActionType st' = None
  ∧ pendingFunctionCall st' = None ∧ showConfirmationDialog st' = false
  ∧ loading st' = false.
Proof.
  unfold handleCancel. repeat (case_match; simpl); done.
Qed.

Lemma handleConfirm_SingleSlot (now : Z) (today : string)
    (followUp : FollowUp) (st : State) :
  SingleSlot st → SingleSlot (handleConfirm now today followUp st).
Proof.
  intros Hst.
  destruct (pendingActionDetails st) as [details|] eqn:Hd;
    [destruct (pendingActionType st) as [type|] eqn:Ht|].
  - destruct (handleConfirm_clears now today followUp st details type Hd Ht)
      as (H1 & H2 & H3 & H4 & _).
    unfold SingleSlot. by rewrite H1, H2, H3.
  - unfold handleConfirm. by rewrite Hd, Ht.
  - unfold handleConfirm. by rewrite Hd.
Qed.

Lemma handleCancel_SingleSlot (followUp : FollowUp) (st : State) :
  SingleSlot (handleCancel followUp st).
Proof.
  destruct (handleCancel_clears followUp st) as (H1 & H2 & H3 & H4 & _).
  unfold SingleSlot. by rewrite H1, H2, H3.
Qed.

Lemma checkAndPostReminders_fields (now : Z) (st : State) :
  let st' := checkAndPostReminders now st in
  pendingActionDetails st' = pendingActionDetails st
  ∧ pendingActionType st' = pendingActionType st
  ∧ pendingFunctionCall st' = pendingFunctionCall st
  ∧ showConfirmationDialog st' = showConfirmationDialog st
  ∧ recurringTasks st' = recurringTasks st.
Proof.
  unfold checkAndPostReminders. repeat (case_match; simpl); done.
Qed.

Lemma reminderEffect_SingleSlot (now : Z) (st : State) :
  SingleSlot st → SingleSlot (reminderEffect now st).
Proof.
  intros Hst. unfold reminderEffect. case_match; [done|].
  destruct (checkAndPostReminders_fields now st) as (H1 & H2 & H3 & H4 & _).
  unfold SingleSlot in *. by rewrite H1, H2, H3, H4.
Qed.

(** When every call is answered before anything else happens the three
    cells stay in agreement; [answeredAfterToggle] shows what an act
    between a call and its answer does to them. *)
Lemma step_SingleSlot (st : State) (e : Event) :
  SingleSlot st → SingleSlot (step st e).
Proof.
  destruct e; simpl;
    auto using sendMessage_SingleSlot, handleToggleTaskCompletion_SingleSlot,
      handleConfirm_SingleSlot, handleCancel_SingleSlot,
      reminderEffect_SingleSlot.
Qed.

Lemma run_SingleSlot (es : list Event) (st : State) :
  SingleSlot st → SingleSlot (run es st).
Proof.
  revert st. induction es as [|e es IH]; intros st Hst; [done|].
  simpl. apply IH. by apply step_SingleSlot.
Qed.

(** *** The cells after each way of opening the dialog *)

Lemma sendMessage_intent (text name : string) (response : GenerateContentResponse)
    (fc : FunctionCall) (rest : list FunctionCall) (args : Obj)
    (type : ActionType) (draft : Obj → Obj) (st : State) :
  accepted text st →
  functionCalls response = fc :: rest →
  fc_name fc = JStr name →
  intentOf name = Some (type, draft) →
  fc_args fc = Some args →
  let st' := sendMessage text (Responds response) st in
  pendingActionDetails st' = Some (draft args)
  ∧ pendingActionType st' = Some type
  ∧ pendingFunctionCall st' = Some fc
  ∧ showConfirmationDialog st' = true
  ∧ loading st' = true
  ∧ chatSession st' = chatSession st
  ∧ calendarEvents st' = calendarEvents st
  ∧ recurringTasks st' = recurringTasks st
  ∧ paymentHistory st' = paymentHistory st
  ∧ goals st' = goals st.
Proof.
  intros [Htrim Hload] Hcalls Hname Htype Hargs. unfold sendMessage.
  apply String.eqb_neq in Htrim. rewrite Htrim, Hload, Hcalls, Hname. simpl.
  unfold intentOf in Htype. unfold withArgs. rewrite Hargs.
  repeat (case_match; [by simplify_eq|]). done.
Qed.

Lemma handleToggleTaskCompletion_found (taskId cur : JsVal) (st : State)
    (taskToToggle : Obj) :
  List.find (λ t : Obj, strict_eq (get t "id") taskId) (recurringTasks st)
    = Some taskToToggle →
  let st' := handleToggleTaskCompletion taskId cur st in
  pendingActionDetails st'
    = Some (<["completed" := JBool (negb (truthy cur))]> taskToToggle)
  ∧ pendingActionType st' = Some confirmTaskCompletion
  ∧ pendingFunctionCall st'
    = Some {| fc_id := JStr ("toggle-" +:+ ToString taskId);
              fc_name := JStr "toggleTaskCompletion";
              fc_args := Some (obj [("taskId", taskId);
                                    ("newStatus", JBool (negb (truthy cur)))]) |}
  ∧ showConfirmationDialog st' = true
  ∧ recurringTasks st' = recurringTasks st.
Proof.
  intros Hfind. unfold handleToggleTaskCompletion. by rewrite Hfind.
Qed.

(** *** Commit *)

(** A confirm of a creating action appends one record, stamped with the
    clock reading, to the collection of its type and leaves the other
    collections as they were. *)
Lemma handleConfirm_creates (now : Z) (today : string) (followUp : FollowUp)
    (st : State) (details : Obj) (type : ActionType) :
  pendingActionDetails st = Some details →
  pendingActionType st = Some type →
  creates type = true →
  let st' := handleConfirm now today followUp st in
  ∃ r, collection type st' = collection type st ++ [r]
       ∧ get r "id" = JStr (pretty now)
       ∧ (type ≠ event → calendarEvents st' = calendarEvents st)
       ∧ (type ≠ task → recurringTasks st' = recurringTasks st)
       ∧ (type ≠ payment → paymentHistory st' = paymentHistory st)
       ∧ (type ≠ goal → goals st' = goals st).
Proof.
  intros Hd Ht Hc. unfold handleConfirm. rewrite Hd, Ht.
  destruct type; try discriminate Hc; simpl;
    (eexists; split;
     [repeat (case_match; simpl); reflexivity
     |split; [unfold Date_now_toString; by get_obj|];
      repeat split; intros Hne; try done;
      repeat (case_match; simpl); reflexivity]).
Qed.

(** The record a confirmed goal action appends. *)
Lemma handleConfirm_goal (now : Z) (today : string) (followUp : FollowUp)
    (st : State) (details : Obj) :
  pendingActionDetails st = Some details →
  pendingActionType st = Some goal →
  ∃ g, goals (handleConfirm now today followUp st) = goals st ++ [g]
       ∧ get g "progress" = JNum 0
       ∧ get g "status" = GoalStatus_NotStarted
       ∧ get g "title" = get details "title"
       ∧ get g "description" = get details "description"
       ∧ get g "targetDate" = get details "targetDate"
       ∧ get g "creationDate" = JStr today.
Proof.
  intros Hd Ht. unfold handleConfirm. rewrite Hd, Ht. simpl.
  eexists. split; [repeat (case_match; simpl); reflexivity|].
  repeat split; by get_obj.
Qed.

(** The task list after a confirmed toggle. *)
Lemma handleConfirm_toggle (now : Z) (today : string) (followUp : FollowUp)
    (st : State) (toggledTask : Obj) :
  pendingActionDetails st = Some toggledTask →
  pendingActionType st = Some confirmTaskCompletion →
  let st' := handleConfirm now today followUp st in
  recurringTasks st'
  = map (λ t : Obj,
           if strict_eq (get t "id") (get toggledTask "id")
           then <["completed" := get toggledTask "completed"]> t else t)
        (recurringTasks st)
  ∧ calendarEvents st' = calendarEvents st
  ∧ paymentHistory st' = paymentHistory st
  ∧ goals st' = goals st.
Proof.
  intros Hd Ht. unfold handleConfirm. rewrite Hd, Ht. by simpl.
Qed.

(** *** Reminders *)

Lemma existsb_content_app (msg : string) (ms : list Message)
    (posted : list string) :
  existsb (λ m, String.eqb (content m) msg) (ms ++ map aiMessage posted)
  = existsb (λ m, String.eqb (content m) msg) ms
    || existsb (String.eqb msg) posted.
Proof.
  rewrite existsb_app. f_equal.
  induction posted as [|p posted IH]; [done|]. simpl.
  by rewrite IH, (String.eqb_sym p msg).
Qed.

Lemma checkAndPostReminders_idempotent (now : Z) (st : State) :
  checkAndPostReminders now (checkAndPostReminders now st)
  = checkAndPostReminders now st.
Proof.
  unfold checkAndPostReminders at 2.
  set (upcoming := getUpcomingDueDates now (recurringTasks st)
                     DEFAULT_DAYS_THRESHOLD).
  destruct (0 <? length upcoming)%nat eqn:Hup.
  2:{ unfold checkAndPostReminders. fold upcoming. by rewrite Hup. }
  set (seen := λ msg : string,
         negb (existsb (λ m, String.eqb (content m) msg) (messages st))).
  set (new := List.filter seen (map reminderText upcoming)).
  destruct (0 <? length new)%nat eqn:Hnew.
  2:{ unfold checkAndPostReminders. fold upcoming. rewrite Hup.
      fold seen. fold new. by rewrite Hnew. }
  unfold checkAndPostReminders. simpl. fold upcoming. rewrite Hup.
  fold seen. fold new. rewrite Hnew.
  rewrite filter_none; [done|].
  intros msg Hmsg. rewrite existsb_content_app.
  destruct (existsb (λ m, String.eqb (content m) msg) (messages st)) eqn:Hseen;
    [done|]. simpl.
  apply negb_false_iff, existsb_exists. exists msg.
  split; [|apply String.eqb_refl].
  apply filter_In. split; [exact Hmsg|]. unfold seen. by rewrite Hseen.
Qed.

(** The scan reads the clock only through the local day. *)
Lemma getUpcomingDueDates_same_day (now1 now2 : Z) (tasks : list Obj)
    (threshold : Z) :
  Date_startOfDay now2 = Date_startOfDay now1 →
  getUpcomingDueDates now2 tasks threshold
  = getUpcomingDueDates now1 tasks threshold.
Proof. intros Hday. unfold getUpcomingDueDates. by rewrite Hday. Qed.

(** A second run later on the same local day posts nothing either. *)
Lemma checkAndPostReminders_same_day (now1 now2 : Z) (st : State) :
  Date_startOfDay now2 = Date_startOfDay now1 →
  checkAndPostReminders now2 (checkAndPostReminders now1 st)
  = checkAndPostReminders now1 st.
Proof.
  intros Hday.
  transitivity (checkAndPostReminders now1 (checkAndPostReminders now1 st));
    [|apply checkAndPostReminders_idempotent].
  unfold checkAndPostReminders at 1 3.
  by rewrite (getUpcomingDueDates_same_day now1 now2 _ _ Hday).
Qed.

(** Without a pending function call [handleCancel] takes its last branch. *)
Lemma handleCancel_without_function_call (followUp : FollowUp) (st : State) :
  pendingFunctionCall st = None →
  messages (handleCancel followUp st)
  = messages st ++ [aiMessage "Action cancelled."].
Proof.
  intros Hfc. unfold handleCancel. rewrite Hfc.
  by rewrite andb_false_r.
Qed.

Lemma sendMessage_while_loading (text : string) (result : GenerateResult)
    (st : State) :
  loading st = true → sendMessage text result st = st.
Proof.
  intros Hl. unfold sendMessage. rewrite Hl. by rewrite orb_true_r.
Qed.

(** *** The properties of section 8 *)

(** C2 (amended). A confirmed action of type event, task, payment or goal
    leaves its collection equal to the old one with exactly one record
    appended; the id of that record is the decimal string of the clock
    reading at the confirm, so it differs from every id already in the
    collection whenever each of those is the decimal string of a different
    clock reading. *)
Theorem C2_confirm_appends_one_stamped_record
    (now : Z) (today : string) (followUp : FollowUp) (st : State)
    (details : Obj) (type : ActionType) :
  pendingActionDetails st = Some details →
  pendingActionType st = Some type →
  creates type = true →
  let st' := handleConfirm now today followUp st in
  ∃ r, collection type st' = collection type st ++ [r]
       ∧ get r "id" = JStr (pretty now)
       ∧ (Forall (λ r0 : Obj, ∃ t : Z, get r0 "id" = JStr (pretty t) ∧ t ≠ now)
            (collection type st) →
          Forall (λ r0 : Obj, strict_eq (get r0 "id") (get r "id") = false)
            (collection type st)).
Proof.
  intros Hd Ht Hc.
  destruct (handleConfirm_creates now today followUp st details type Hd Ht Hc)
    as (r & Happ & Hid & _).
  exists r. split; [exact Happ|]. split; [exact Hid|].
  intros Hold. eapply Forall_impl; [exact Hold|].
  intros r0 (t & Hr0 & Hne). simpl. rewrite Hr0, Hid.
  apply not_true_iff_false. intros Heq. apply strict_eq_JStr in Heq.
  by apply (inj pretty) in Heq.
Qed.

(** C3. A cancel, whatever is pending and whatever the model answers,
    leaves the four entity collections exactly as they were. *)
Theorem C3_cancel_leaves_collections (followUp : FollowUp) (st : State) :
  let st' := handleCancel followUp st in
  calendarEvents st' = calendarEvents st
  ∧ recurringTasks st' = recurringTasks st
  ∧ paymentHistory st' = paymentHistory st
  ∧ goals st' = goals st.
Proof.
  unfold handleCancel. repeat (case_match; simpl); done.
Qed.

(** C4. A confirmed toggle keeps the length of the task list; at every
    position the task keeps all its properties other than [completed]
    (so [lastExecutionDate] too), a task whose id differs from the draft's
    is unchanged, and a task with the draft's id gets the draft's
    [completed]; the other three collections are unchanged. *)
Theorem C4_toggle_commit_changes_only_completed
    (now : Z) (today : string) (followUp : FollowUp) (st : State)
    (toggledTask : Obj) :
  pendingActionDetails st = Some toggledTask →
  pendingActionType st = Some confirmTaskCompletion →
  let st' := handleConfirm now today followUp st in
  length (recurringTasks st') = length (recurringTasks st)
  ∧ (∀ (i : nat) (t : Obj), recurringTasks st !! i = Some t →
       ∃ t', recurringTasks st' !! i = Some t'
             ∧ (∀ k, k ≠ "completed" → t' !! k = t !! k)
             ∧ (strict_eq (get t "id") (get toggledTask "id") = false →
                t' = t)
             ∧ (strict_eq (get t "id") (get toggledTask "id") = true →
                get t' "completed" = get toggledTask "completed"))
  ∧ calendarEvents st' = calendarEvents st
  ∧ paymentHistory st' = paymentHistory st
  ∧ goals st' = goals st.
Proof.
  intros Hd Ht.
  destruct (handleConfirm_toggle now today followUp st toggledTask Hd Ht)
    as (Htasks & He & Hp & Hg).
  simpl. rewrite Htasks. split; [by rewrite length_map|].
  split; [|done].
  intros i t Hi. eexists. split.
  - change (map ?f ?l) with (f <$> l). by rewrite list_lookup_fmap, Hi.
  - simpl. destruct (strict_eq (get t "id") (get toggledTask "id")).
    + split; [intros k Hk; by rewrite lookup_insert_ne|].
      split; [done|]. intros _. apply get_insert_eq.
    + done.
Qed.

(** C5. Every goal a confirmed goal action appends has progress 0 and
    status not-started: whatever the draft holds, and so for every argument
    map of a createGoal call, whatever progress or status it asks for. *)
Theorem C5_goal_starts_at_zero_not_started :
  (∀ (now : Z) (today : string) (followUp : FollowUp) (st : State)
     (details : Obj),
     pendingActionDetails st = Some details →
     pendingActionType st = Some goal →
     ∃ g, goals (handleConfirm now today followUp st) = goals st ++ [g]
          ∧ get g "progress" = JNum 0
          ∧ get g "status" = JStr "not-started")
  ∧ (∀ (text : string) (response : GenerateContentResponse)
       (fc : FunctionCall) (rest : list FunctionCall) (args : Obj)
       (now : Z) (today : string) (followUp : FollowUp) (st : State),
       accepted text st →
       functionCalls response = fc :: rest →
       fc_name fc = JStr "createGoal" →
       fc_args fc = Some args →
       ∃ g, goals (handleConfirm now today followUp
                     (sendMessage text (Responds response) st))
            = goals st ++ [g]
            ∧ get g "progress" = JNum 0
            ∧ get g "status" = JStr "not-started").
Proof.
  split.
  - intros now today followUp st details Hd Ht.
    destruct (handleConfirm_goal now today followUp st details Hd Ht)
      as (g & Hg & Hp & Hs & _).
    by exists g.
  - intros text response fc rest args now today followUp st Hacc Hcalls Hname
      Hargs.
    destruct (sendMessage_intent text "createGoal" response fc rest args goal
                goalDraft st Hacc Hcalls Hname eq_refl Hargs)
      as (Hd & Ht & _ & _ & _ & _ & _ & _ & _ & Hgoals).
    destruct (handleConfirm_goal now today followUp _ _ Hd Ht)
      as (g & Hg & Hp & Hs & _).
    exists g. by rewrite Hg, Hgoals.
Qed.

(** C7. Posting reminders is idempotent: for every task list and
    conversation log, a second scan-and-post at the same clock reading,
    with the task list unchanged and the log as the first run left it,
    appends nothing. *)
Theorem C7_reminder_posting_idempotent (now : Z) (st : State) :
  let st1 := checkAndPostReminders now st in
  let st2 := checkAndPostReminders now st1 in
  recurringTasks st1 = recurringTasks st
  ∧ messages st2 = messages st1
  ∧ st2 = st1
  ∧ reminderEffect now (reminderEffect now st) = reminderEffect now st.
Proof.
  simpl. split; [apply checkAndPostReminders_fields|].
  rewrite checkAndPostReminders_idempotent. repeat split.
  unfold reminderEffect.
  destruct (length (recurringTasks st) =? 0)%nat eqn:Hlen.
  - by rewrite Hlen.
  - destruct (checkAndPostReminders_fields now st) as (_ & _ & _ & _ & ->).
    by rewrite Hlen, checkAndPostReminders_idempotent.
Qed.

(** C9 (amended). A pending action opened by a toggle request holds a
    placeholder function call (id toggle-<taskId>, name
    toggleTaskCompletion), not null; confirming or cancelling it never
    depends on a follow-up answer, so the placeholder is never sent.  A
    pending action opened from a function call of the model holds that
    call. *)
Theorem C9_pending_function_call_by_origin :
  (∀ (taskId cur : JsVal) (st : State) (taskToToggle : Obj),
     List.find (λ t : Obj, strict_eq (get t "id") taskId) (recurringTasks st)
       = Some taskToToggle →
     let st' := handleToggleTaskCompletion taskId cur st in
     pendingActionType st' = Some confirmTaskCompletion
     ∧ pendingFunctionCall st'
       = Some {| fc_id := JStr ("toggle-" +:+ ToString taskId);
                 fc_name := JStr "toggleTaskCompletion";
                 fc_args :=
                   Some (obj [("taskId", taskId);
                              ("newStatus", JBool (negb (truthy cur)))]) |}
     ∧ (∀ now today f1 f2,
          handleConfirm now today f1 st' = handleConfirm now today f2 st')
     ∧ (∀ f1 f2, handleCancel f1 st' = handleCancel f2 st'))
  ∧ (∀ (text name : string) (response : GenerateContentResponse)
       (fc : FunctionCall) (rest : list FunctionCall) (args : Obj)
       (type : ActionType) (draft : Obj → Obj) (st : State),
       accepted text st →
       functionCalls response = fc :: rest →
       fc_name fc = JStr name →
       intentOf name = Some (type, draft) →
       fc_args fc = Some args →
       let st' := sendMessage text (Responds response) st in
       pendingActionType st' = Some type
       ∧ pendingFunctionCall st' = Some fc).
Proof.
  split.
  - intros taskId cur st taskToToggle Hfind.
    destruct (handleToggleTaskCompletion_found taskId cur st taskToToggle Hfind)
      as (Hd & Ht & Hfc & _).
    simpl. split; [exact Ht|]. split; [exact Hfc|]. split.
    + intros now today f1 f2. unfold handleConfirm. by rewrite Hd, Ht.
    + intros f1 f2. unfold handleCancel. by rewrite Ht.
  - intros text name response fc rest args type draft st Hacc Hcalls Hname
      Hint Hargs.
    destruct (sendMessage_intent text name response fc rest args type draft st
                Hacc Hcalls Hname Hint Hargs) as (_ & Ht & Hfc & _).
    by split.
Qed.
End AppFacts.

(** ** Runs with calls in flight *)

Section InterleavingFacts.
Context `{Host}.

(** *** The cuts compose back to the handlers *)

Lemma sendMessage_split (text : string) (result : GenerateResult) (st : State) :
  sendMessage text result st
  = match sendMessage_begin text st with
    | Some st1 => sendMessage_resume result st1
    | None => st
    end.
Proof. unfold sendMessage, sendMessage_begin. by case_match. Qed.

Lemma handleConfirm_split (now : Z) (today : string) (followUp : FollowUp)
    (st : State) :
  handleConfirm now today followUp st
  = match handleConfirm_begin now today st with
    | (st2, Some resultMessage) =>
        handleConfirm_resume followUp resultMessage st2
    | (st', None) => st'
    end.
Proof.
  unfold handleConfirm, handleConfirm_begin.
  destruct (pendingActionDetails st) as [details|]; [|done].
  destruct (pendingActionType st) as [type|]; [|done].
  destruct (commit now today type details _) as [[st2 resultMessage] needed].
  destruct (needed && _ && _); [by destruct followUp|done].
Qed.

Lemma handleCancel_split (followUp : FollowUp) (st : State) :
  handleCancel followUp st
  = match handleCancel_begin st with
    | (st1, true) => handleCancel_resume followUp st1
    | (st', false) => st'
    end.
Proof.
  unfold handleCancel, handleCancel_begin.
  destruct (negb _ && _ && _); [by destruct followUp|done].
Qed.

(** With no call in flight, an event of [Event] is its click followed at
    once by the answer: the runs of [run] are among the runs of
    [performAll]. *)
Lemma step_as_acts (w : World) (e : Event) :
  calls w = [] →
  app (performAll (actsOf e) w) = step (app w) e
  ∧ calls (performAll (actsOf e) w) = [].
Proof.
  intros Hc. destruct e as [text result|taskId cur|now today f|f|now]; simpl.
  - rewrite sendMessage_split.
    destruct (sendMessage_begin text (app w)) as [st1|]; simpl.
    + rewrite Hc. simpl. unfold app. simpl. by rewrite Hc.
    + by rewrite Hc.
  - done.
  - rewrite handleConfirm_split.
    destruct (handleConfirm_begin now today (app w)) as [st' [m|]]; simpl.
    + rewrite Hc. simpl. unfold app. simpl. by rewrite Hc.
    + by rewrite Hc.
  - rewrite handleCancel_split.
    destruct (handleCancel_begin (app w)) as [st' [|]]; simpl.
    + rewrite Hc. simpl. unfold app. simpl. by rewrite Hc.
    + by rewrite Hc.
  - done.
Qed.

Lemma performAll_app (acts1 acts2 : list Act) (w : World) :
  performAll (acts1 ++ acts2) w = performAll acts2 (performAll acts1 w).
Proof. apply fold_left_app. Qed.

Lemma run_as_acts (es : list Event) (w : World) :
  calls w = [] →
  app (performAll (flat_map actsOf es) w) = run es (app w)
  ∧ calls (performAll (flat_map actsOf es) w) = [].
Proof.
  revert w. induction es as [|e es IH]; intros w Hc; [done|].
  simpl flat_map. rewrite performAll_app.
  destruct (step_as_acts w e Hc) as [Happ Hcalls].
  destruct (IH _ Hcalls) as [IH1 IH2].
  split; [|done]. rewrite IH1. simpl. by rewrite Happ.
Qed.

(** *** What each cut leaves behind *)

Lemma sendMessage_resume_opens_or_idles (result : GenerateResult) (st : State) :
  showConfirmationDialog (sendMessage_resume result st) = true
  ∨ loading (sendMessage_resume result st) = false.
Proof.
  unfold sendMessage_resume.
  destruct result as [response|message]; [|by right].
  destruct (functionCalls response) as [|fc rest]; [by right|].
  unfold withArgs.
  repeat (case_match; try (by left); try (by right)).
Qed.

Lemma handleConfirm_resume_idles (followUp : FollowUp) (m : string) (st : State) :
  loading (handleConfirm_resume followUp m st) = false.
Proof. by destruct followUp. Qed.

Lemma handleCancel_resume_idles (followUp : FollowUp) (st : State) :
  loading (handleCancel_resume followUp st) = false.
Proof. by destruct followUp. Qed.

Lemma handleConfirm_begin_idles (now : Z) (today : string) (st st' : State) :
  handleConfirm_begin now today st = (st', None) →
  st' = st ∨ loading st' = false.
Proof.
  unfold handleConfirm_begin.
  destruct (pendingActionDetails st) as [details|]; [|intros [= <-]; by left].
  destruct (pendingActionType st) as [type|]; [|intros [= <-]; by left].
  destruct (commit now today type details _) as [[st2 resultMessage] needed].
  destruct (needed && _ && _); [done|]. intros [= <-]. by right.
Qed.

Lemma handleCancel_begin_idles (st st' : State) :
  handleCancel_begin st = (st', false) → loading st' = false.
Proof.
  unfold handleCancel_begin. destruct (negb _ && _ && _); [done|].
  by intros [= <-].
Qed.

Lemma handleToggleTaskCompletion_opens (taskId cur : JsVal) (st : State) :
  handleToggleTaskCompletion taskId cur st = st
  ∨ showConfirmationDialog (handleToggleTaskCompletion taskId cur st) = true.
Proof.
  unfold handleToggleTaskCompletion. destruct (List.find _ _); [by right|by left].
Qed.

Lemma reminderEffect_flags (now : Z) (st : State) :
  loading (reminderEffect now st) = loading st
  ∧ showConfirmationDialog (reminderEffect now st) = showConfirmationDialog st
  ∧ collections (reminderEffect now st) = collections st.
Proof.
  unfold reminderEffect, checkAndPostReminders. by repeat case_match.
Qed.

Lemma goalReminderEffect_flags (now : Z) (st : State) :
  loading (goalReminderEffect now st) = loading st
  ∧ showConfirmationDialog (goalReminderEffect now st)
    = showConfirmationDialog st
  ∧ collections (goalReminderEffect now st) = collections st.
Proof.
  unfold goalReminderEffect, checkAndPostGoalReminders. by repeat case_match.
Qed.

(** *** Busy only while there is something to wait for *)

Lemma calling_waiting (c : Call) (w : World) : waiting (calling c w).
Proof. right. simpl. by destruct (calls w). Qed.

Lemma perform_waiting (w : World) (a : Act) :
  (loading (app w) = true → waiting w) →
  loading (app (perform w a)) = true → waiting (perform w a).
Proof.
  intros Hw.
  destruct a as [text|taskId cur|now today| |i result|i f|now|now|t|t| |g s];
    cbn [perform].
  - destruct (sendMessage_begin text (app w)); [|exact Hw].
    intros _. apply calling_waiting.
  - change (app (onApp ?f w)) with (f (app w)).
    destruct (handleToggleTaskCompletion_opens taskId cur (app w)) as [Hs|Ho].
    + unfold waiting, onApp, app in *. simpl. rewrite Hs. exact Hw.
    + intros _. by left.
  - destruct (handleConfirm_begin now today (app w)) as [st' [m|]] eqn:Hb.
    + intros _. apply calling_waiting.
    + destruct (handleConfirm_begin_idles _ _ _ _ Hb) as [->|Hl].
      * exact Hw.
      * intros Hl'. unfold app in Hl'. simpl in Hl'. congruence.
  - destruct (handleCancel_begin (app w)) as [st' [|]] eqn:Hb.
    + intros _. apply calling_waiting.
    + apply handleCancel_begin_idles in Hb.
      intros Hl'. unfold app in Hl'. simpl in Hl'. congruence.
  - destruct (calls w !! i) as [[| |]|]; try exact Hw.
    change (app (onApp ?f ?w')) with (f (app w')).
    destruct (sendMessage_resume_opens_or_idles result (app (answered i w)))
      as [Ho|Hl]; [by left|congruence].
  - destruct (calls w !! i) as [[|m|]|]; try exact Hw;
      change (app (onApp ?f ?w')) with (f (app w')).
    + by rewrite handleConfirm_resume_idles.
    + by rewrite handleCancel_resume_idles.
  - unfold waiting. change (app (onApp ?f ?w')) with (f (app w')).
    destruct (reminderEffect_flags now (app w)) as (-> & -> & _). exact Hw.
  - unfold waiting. change (app (onApp ?f ?w')) with (f (app w')).
    destruct (goalReminderEffect_flags now (app w)) as (-> & -> & _). exact Hw.
  - exact Hw.
  - exact Hw.
  - exact Hw.
  - exact Hw.
Qed.

(** X6. From the page after mount and for every sequence of acts, answers
    arriving in any order between other acts included: if the loading flag
    is set then the confirmation dialog is open or a model call is in
    flight. *)
Theorem busy_only_while_waiting
    (events tasks payments goalList : list Obj) (chat : bool)
    (acts : list Act) :
  let w := performAll acts (mounted events tasks payments goalList chat) in
  loading (app w) = true → waiting w.
Proof.
  simpl.
  assert (Hall : ∀ w, (loading (app w) = true → waiting w) →
                      loading (app (performAll acts w)) = true →
                      waiting (performAll acts w)).
  { induction acts as [|a acts IH]; intros w Hw; [exact Hw|].
    simpl. apply IH. by apply perform_waiting. }
  apply Hall. done.
Qed.

(** *** Who writes the collections *)

Lemma sendMessage_resume_collections (result : GenerateResult) (st : State) :
  collections (sendMessage_resume result st) = collections st.
Proof.
  unfold sendMessage_resume, withArgs. by repeat case_match.
Qed.

Lemma perform_collections (w : World) (a : Act) :
  writesEntities a = false →
  collections (app (perform w a)) = collections (app w).
Proof.
  destruct a as [text|taskId cur|now today| |i result|i f|now|now|t|t| |g s];
    try done; intros _; cbn [perform].
  - unfold sendMessage_begin.
    by destruct (String.eqb _ _ || loading _).
  - change (app (onApp ?f ?w')) with (f (app w')).
    unfold handleToggleTaskCompletion. by destruct (List.find _ _).
  - unfold handleCancel_begin. by destruct (negb _ && _ && _).
  - destruct (calls w !! i) as [[| |]|]; try done.
    change (app (onApp ?f ?w')) with (f (app w')).
    apply sendMessage_resume_collections.
  - destruct (calls w !! i) as [[|m|]|]; try done; by destruct f.
  - change (app (onApp ?f ?w')) with (f (app w')).
    apply reminderEffect_flags.
  - change (app (onApp ?f ?w')) with (f (app w')).
    apply goalReminderEffect_flags.
Qed.

(** X5. The four collections are written by three handlers only: the
    confirm, the save of an edited task and the goal status update.  Over
    any sequence of the other acts (messages sent, answers of the calls in
    flight in any order, toggle requests, cancels, both reminder effects,
    opening and closing the editor) they stay exactly as they were. *)
Theorem entities_change_only_at_confirm_or_direct_edit
    (acts : list Act) (w : World) :
  Forall (λ a, writesEntities a = false) acts →
  collections (app (performAll acts w)) = collections (app w).
Proof.
  revert w. induction acts as [|a acts IH]; intros w Hacts; [done|].
  inversion Hacts as [|? ? Ha Hrest]; subst. simpl.
  rewrite IH by done. by apply perform_collections.
Qed.
(** *** The log with calls in flight *)

Ltac appended :=
  simpl; repeat (apply prefix_app_r); reflexivity.

(** No act, an answer that arrives late included, removes or rewrites a
    message. *)
Lemma perform_log (w : World) (a : Act) :
  messages (app w) `prefix_of` messages (app (perform w a)).
Proof.
  destruct a as [text|taskId cur|now today| |i result|i f|now|now|t|t| |g s];
    cbn [perform]; try done.
  - unfold sendMessage_begin.
    destruct (String.eqb _ _ || loading _); [done|appended].
  - change (app (onApp ?f ?w')) with (f (app w')).
    unfold handleToggleTaskCompletion. by destruct (List.find _ _).
  - unfold handleConfirm_begin.
    destruct (pendingActionDetails (app w)) as [details|]; [|done].
    destruct (pendingActionType (app w)) as [[]|]; [..|done]; simpl;
      repeat (case_match; simpl); simplify_eq/=; appended.
  - unfold handleCancel_begin.
    destruct (negb _ && _ && _); appended.
  - destruct (calls w !! i) as [[| |]|]; try done.
    change (app (onApp ?f ?w')) with (f (app w')).
    change (app (answered i w)) with (app w).
    unfold sendMessage_resume, withArgs, sendMessage_catch.
    repeat (case_match; simpl); appended.
  - destruct (calls w !! i) as [[|m|]|]; try done;
      change (app (onApp ?f ?w')) with (f (app w'));
      change (app (answered i w)) with (app w);
      destruct f; appended.
  - change (app (onApp ?f ?w')) with (f (app w')).
    unfold reminderEffect, checkAndPostReminders.
    repeat (case_match; simpl); appended.
  - change (app (onApp ?f ?w')) with (f (app w')).
    unfold goalReminderEffect, checkAndPostGoalReminders.
    repeat (case_match; simpl); appended.
Qed.

Lemma performAll_log (acts : list Act) (w : World) :
  messages (app w) `prefix_of` messages (app (performAll acts w)).
Proof.
  revert w. induction acts as [|a acts IH]; intros w; [done|].
  simpl. etransitivity; [apply perform_log|apply IH].
Qed.
End InterleavingFacts.

(** ** The properties at the scenarios of the specification *)

(** C2, at an input. The dentist's appointment is confirmed at noon. *)
Lemma C2_confirm_appends_one_stamped_record_at_dentist :
  ∃ r, calendarEvents (@handleConfirm fixtureHost noon_0307 date_0307
                         (FollowUpText None) dentistPending)
       = calendarEvents dentistPending ++ [r]
       ∧ get r "id" = JStr (pretty noon_0307)
       ∧ (Forall (λ r0 : Obj,
                    ∃ t : Z, get r0 "id" = JStr (pretty t) ∧ t ≠ noon_0307)
            (calendarEvents dentistPending) →
          Forall (λ r0 : Obj, strict_eq (get r0 "id") (get r "id") = false)
            (calendarEvents dentistPending)).
Proof.
  exact (@C2_confirm_appends_one_stamped_record fixtureHost noon_0307 date_0307
           (FollowUpText None) dentistPending (eventDraft _) event
           eq_refl eq_refl eq_refl).
Defined.

(** C2 as stated fails: a second appointment confirmed at the same clock
    reading as the first gets the id the first already has. *)
Lemma C2_same_clock_reading_repeats_the_id :
  let st := @run fixtureHost twoAppointments emptyStore in
  let st' := @handleConfirm fixtureHost noon_0307 date_0307
               (FollowUpText None) st in
  pendingActionType st = Some event
  ∧ calendarEvents st = [dentistEvent]
  ∧ calendarEvents st' = calendarEvents st ++ [checkupEvent]
  ∧ In dentistEvent (calendarEvents st)
  ∧ get dentistEvent "id" = get checkupEvent "id"
  ∧ strict_eq (get dentistEvent "id") (get checkupEvent "id") = true.
Proof.
  split; [vm_compute; reflexivity|].
  split; [vm_compute; reflexivity|].
  split; [vm_compute; reflexivity|].
  split; [left; vm_compute; reflexivity|].
  split; vm_compute; reflexivity.
Qed.

(** C4, at scenario C: the toggle of the plants task is confirmed. *)
Lemma C4_toggle_commit_at_scenario_C :
  let st := plantTogglePending in
  let st' := @handleConfirm fixtureHost noon_0307 date_0307 (FollowUpText None) st in
  length (recurringTasks st') = length (recurringTasks st)
  ∧ (∀ (i : nat) (t : Obj), recurringTasks st !! i = Some t →
       ∃ t', recurringTasks st' !! i = Some t'
             ∧ (∀ k, k ≠ "completed" → t' !! k = t !! k)
             ∧ (strict_eq (get t "id") (JStr "1") = false → t' = t)
             ∧ (strict_eq (get t "id") (JStr "1") = true →
                get t' "completed" = JBool true))
  ∧ calendarEvents st' = calendarEvents st
  ∧ paymentHistory st' = paymentHistory st
  ∧ goals st' = goals st.
Proof.
  exact (@C4_toggle_commit_changes_only_completed fixtureHost noon_0307
           date_0307 (FollowUpText None) plantTogglePending
           (<["completed" := JBool true]> waterPlants) eq_refl eq_refl).
Defined.

(** Scenario C, evaluated: the task is completed, its last execution date is
    the stored one, and no record was created. *)
Example scenario_C :
  map (λ t : Obj, (get t "id", get t "completed", get t "lastExecutionDate"))
      (recurringTasks (@handleConfirm fixtureHost noon_0307 date_0307
                         (FollowUpText None) plantTogglePending))
  = [(JStr "1", JBool true, JStr "2025-03-01")].
Proof. vm_compute. reflexivity. Qed.

(** C5, at an input: a createGoal call that asks for progress 80 and status
    completed. *)
Lemma C5_goal_starts_at_zero_at_marathon :
  ∃ g, goals (@handleConfirm fixtureHost noon_0307 date_0307 (FollowUpText None)
                marathonPending)
       = goals emptyStore ++ [g]
       ∧ get g "progress" = JNum 0
       ∧ get g "status" = JStr "not-started".
Proof.
  apply (proj2 (@C5_goal_starts_at_zero_not_started fixtureHost)
           "I want to run a marathon" (callOf marathonCall) marathonCall []
           marathonArgs noon_0307 date_0307 (FollowUpText None) emptyStore).
  - split; [by vm_compute|reflexivity].
  - reflexivity.
  - reflexivity.
  - reflexivity.
Defined.

(** C8, at the failing input: with nothing pending, confirm returns the
    state unchanged but cancel appends a cancellation notice to the log. *)
Theorem C8_cancel_without_pending_posts_a_notice :
  pendingActionDetails emptyStore = None
  ∧ pendingActionType emptyStore = None
  ∧ pendingFunctionCall emptyStore = None
  ∧ @handleConfirm fixtureHost noon_0307 date_0307 (FollowUpText None) emptyStore
    = emptyStore
  ∧ messages (handleCancel (FollowUpText None) emptyStore)
    = messages emptyStore ++ [aiMessage "Action cancelled."]
  ∧ calendarEvents (handleCancel (FollowUpText None) emptyStore)
    = calendarEvents emptyStore.
Proof.
  split; [reflexivity|]. split; [reflexivity|]. split; [reflexivity|].
  split; [reflexivity|]. split; reflexivity.
Qed.

(** C9 as stated fails: after a toggle request the pending function call is
    set, to the placeholder named toggleTaskCompletion. *)
Lemma C9_toggle_sets_a_function_call :
  pendingActionType plantTogglePending = Some confirmTaskCompletion
  ∧ ∃ fc, pendingFunctionCall plantTogglePending = Some fc
          ∧ fc_id fc = JStr "toggle-1"
          ∧ fc_name fc = JStr "toggleTaskCompletion".
Proof.
  split; [vm_compute; reflexivity|].
  eexists. split; [vm_compute; reflexivity|].
  split; vm_compute; reflexivity.
Qed.

(** C9, at an input: the toggle of the plants task, and the dentist's
    call. *)
Lemma C9_pending_function_call_at_scenarios :
  pendingFunctionCall plantTogglePending
  = Some {| fc_id := JStr "toggle-1";
            fc_name := JStr "toggleTaskCompletion";
            fc_args := Some (obj [("taskId", JStr "1");
                                  ("newStatus", JBool true)]) |}
  ∧ pendingFunctionCall dentistPending = Some dentistCall.
Proof.
  split.
  - apply (proj1 (@C9_pending_function_call_by_origin fixtureHost)
             (JStr "1") (JBool false) plantStore waterPlants eq_refl).
  - apply (proj2 (@C9_pending_function_call_by_origin fixtureHost)
             "Book the dentist" "createCalendarEvent" (callOf dentistCall)
             dentistCall [] dentistArgs event eventDraft emptyStore).
    + split; [by vm_compute|reflexivity].
    + reflexivity.
    + reflexivity.
    + reflexivity.
    + reflexivity.
Defined.

(** C10, at an input: the stored document with a task that has no
    [completed] property. *)
Lemma C10_load_at_stored_document :
  let loaded := @loadRecurringTasksFromLocalStorage fixtureHost taskStorage in
  length loaded = length [waterPlants; legacyTask]
  ∧ ∀ (i : nat) (t : Obj), [waterPlants; legacyTask] !! i = Some t →
      ∃ t', loaded !! i = Some t'
            ∧ (∀ k, k ≠ "completed" → t' !! k = t !! k)
            ∧ get t' "completed"
              = match get t "completed" with
                | JUndefined | JNull => JBool false
                | c => c
                end.
Proof.
  exact (@C10_load_preserves_length_and_order fixtureHost taskStorage
           "tasks.json" [waterPlants; legacyTask] eq_refl eq_refl).
Defined.

(** Scenario D: due in three days and not completed, the task is in the
    scan; completed, it is not. *)
Example scenario_D :
  @getUpcomingDueDates fixtureHost noon_0307 [waterPlants] 7 = [waterPlants]
  ∧ @getUpcomingDueDates fixtureHost noon_0307
      [<["completed" := JBool true]> waterPlants] 7 = [].
Proof. split; vm_compute; reflexivity. Qed.

(** The scan reads the clock: nine days before the due date nothing is
    posted, and a run six days later posts the reminder. *)
Example reminder_on_a_later_day :
  let st1 := @checkAndPostReminders fixtureHost noon_0301 plantStore in
  let st2 := @checkAndPostReminders fixtureHost noon_0307 st1 in
  messages st1 = messages plantStore
  ∧ length (messages st2) = S (length (messages st1))
  ∧ @checkAndPostReminders fixtureHost noon_0307 st2 = st2.
Proof.
  split; [vm_compute; reflexivity|].
  split; vm_compute; reflexivity.
Qed.

(** A toggle request while the dentist's appointment is pending replaces
    it: one pending action before, one after. *)
Example toggle_replaces_pending :
  let st := @sendMessage fixtureHost "Book the dentist" (answers dentistCall)
              plantStore in
  let st' := @handleToggleTaskCompletion fixtureHost (JStr "1") (JBool false) st in
  pendingActionType st = Some event
  ∧ pendingActionType st' = Some confirmTaskCompletion
  ∧ length (pendingActions st') = 1%nat.
Proof.
  split; [vm_compute; reflexivity|].
  split; vm_compute; reflexivity.
Qed.

(** C1 (the code departs from it). The claim wants a second pending action
    created while one is outstanding to stay unobservable.  On the page with
    the plants task, the dentist's appointment is proposed and confirmed;
    while its function response is in flight the dialog is closed, the three
    cells still hold the appointment and the task's checkbox is live.  The
    checkbox is ticked: the toggle takes the cells over and opens the dialog.
    Then the answer arrives and the tail of [handleConfirm] empties the
    cells.  Every act was offered by the page.  The appointment is committed,
    the toggle request is lost, the task is as it was, and the dialog stays
    open with nothing pending: the cells disagree, the prompt reads "Are you
    sure?" and Confirm does nothing. *)
Theorem C1_toggle_during_confirm_breaks_the_slot :
  let during := @performAll fixtureHost confirmInFlight plantPage in
  let toggled := @performAll fixtureHost toggledMeanwhile plantPage in
  let final := @performAll fixtureHost answeredAfterToggle plantPage in
  @offeredAll fixtureHost answeredAfterToggle plantPage = true
  ∧ pendingActionType (app during) = Some event
  ∧ showConfirmationDialog (app during) = false
  ∧ calendarEvents (app during) = [dentistEvent]
  ∧ pendingActions (app toggled)
    = [(confirmTaskCompletion, <["completed" := JBool true]> waterPlants)]
  ∧ showConfirmationDialog (app final) = true
  ∧ pendingActionDetails (app final) = None
  ∧ pendingActionType (app final) = None
  ∧ pendingFunctionCall (app final) = None
  ∧ ¬ SingleSlot (app final)
  ∧ recurringTasks (app final) = [waterPlants]
  ∧ @getConfirmationMessage fixtureHost (app final) = "Are you sure?"
  ∧ ∀ (now : Z) (today : string),
      @perform fixtureHost final (Confirms now today) = final.
Proof.
  intros during toggled final.
  split; [vm_compute; reflexivity|].
  split; [vm_compute; reflexivity|].
  split; [vm_compute; reflexivity|].
  split; [vm_compute; reflexivity|].
  split; [vm_compute; reflexivity|].
  split; [vm_compute; reflexivity|].
  split; [vm_compute; reflexivity|].
  split; [vm_compute; reflexivity|].
  split; [vm_compute; reflexivity|].
  split; [vm_compute; intros [=]|].
  split; [vm_compute; reflexivity|].
  split; [vm_compute; reflexivity|].
  intros now today. vm_compute. reflexivity.
Qed.

(** ** Sorting *)

Lemma StronglySorted_weaken {A : Type} (R R' : A → A → Prop) (l : list A) :
  (∀ a b, R a b → R' a b) → StronglySorted R l → StronglySorted R' l.
Proof.
  intros Himpl Hs. induction Hs as [|x l Hs IH Hx]; constructor; [done|].
  eapply Forall_impl; [exact Hx|]. intros y. apply Himpl.
Qed.

Section SortFacts.
Context {A : Type} (comparefn : A → A → Z).

Lemma sort_insert_Permutation (x : A) (l : list A) :
  sort_insert comparefn x l ≡ₚ x :: l.
Proof.
  induction l as [|y l IH]; simpl; [done|].
  destruct (comparefn x y <=? 0); [done|].
  rewrite IH. apply Permutation_swap.
Qed.

Lemma Array_sort_Permutation (l : list A) : Array_sort comparefn l ≡ₚ l.
Proof.
  induction l as [|x l IH]; simpl; [done|].
  by rewrite sort_insert_Permutation, IH.
Qed.

(** When the comparator is the difference of a key on the members of the
    list, the result is ordered by that key. *)
Section ByKey.
Context (key : A → Z).

Lemma sort_insert_sorted (x : A) (l : list A) :
  (∀ y, y ∈ l → comparefn x y = key x - key y) →
  StronglySorted (λ a b, key a ≤ key b) l →
  StronglySorted (λ a b, key a ≤ key b) (sort_insert comparefn x l).
Proof.
  intros Hcmp Hsorted. induction l as [|y l IH]; simpl.
  - repeat constructor.
  - apply StronglySorted_inv in Hsorted as [Hl Hy].
    rewrite (Hcmp y) by (by left).
    destruct (key x - key y <=? 0) eqn:Hle.
    + apply Z.leb_le in Hle. constructor.
      * by constructor.
      * constructor; [lia|]. eapply Forall_impl; [exact Hy|].
        intros z Hz. simpl in *. lia.
    + apply Z.leb_gt in Hle. constructor.
      * apply IH; [|exact Hl]. intros z Hz. apply Hcmp. by right.
      * rewrite sort_insert_Permutation. constructor; [lia|exact Hy].
Qed.

Lemma Array_sort_sorted (l : list A) :
  (∀ x y, x ∈ l → y ∈ l → comparefn x y = key x - key y) →
  StronglySorted (λ a b, key a ≤ key b) (Array_sort comparefn l).
Proof.
  intros Hcmp. induction l as [|x l IH]; simpl; [constructor|].
  apply sort_insert_sorted.
  - intros y Hy. rewrite Array_sort_Permutation in Hy.
    apply Hcmp; [by left|by right].
  - apply IH. intros a b Ha Hb. apply Hcmp; by right.
Qed.
End ByKey.
End SortFacts.

(** ** The four storage slots *)

Section StorageFacts.
Context `{Host} `{Serializer}.

Lemma saveTo_lookup_ne (key key' : string) (records : list Obj)
    (localStorage : gmap string string) :
  key ≠ key' → saveTo key records localStorage !! key' = localStorage !! key'.
Proof.
  intros Hne. unfold saveTo. destruct (JSON_stringify records); [|done].
  by rewrite lookup_insert_ne.
Qed.

Lemma saveTo_lookup_eq (key serialized : string) (records : list Obj)
    (localStorage : gmap string string) :
  JSON_stringify records = Some serialized →
  saveTo key records localStorage !! key = Some serialized.
Proof. intros Hs. unfold saveTo. rewrite Hs. apply lookup_insert_eq. Qed.

(** Storage is empty, or whatever it holds does not parse: every loader
    returns the empty collection. *)
Theorem loaders_return_empty_when_nothing_parses
    (now : Z) (today : string) (localStorage : gmap string string) :
  (∀ key s, localStorage !! key = Some s → JSON_parse s = None) →
  loadEventsFromLocalStorage now localStorage = []
  ∧ loadRecurringTasksFromLocalStorage localStorage = []
  ∧ loadPaymentHistoryFromLocalStorage localStorage = []
  ∧ loadGoalsFromLocalStorage today localStorage = [].
Proof.
  intros Hbad.
  unfold loadEventsFromLocalStorage, loadRecurringTasksFromLocalStorage,
    loadPaymentHistoryFromLocalStorage, loadGoalsFromLocalStorage.
  repeat split;
    match goal with
    | |- context [localStorage !! ?k] =>
        destruct (localStorage !! k) as [s|] eqn:Hk; [|done];
        by rewrite (Hbad k s Hk)
    end.
Qed.

(** Loading the calendar keeps exactly the stored events that are not past
    (an event whose date and time do not parse is dropped with the past
    ones), each once, in ascending order of their time. *)
Theorem loadEvents_drops_past_and_sorts
    (now : Z) (localStorage : gmap string string) (serialized : string)
    (stored : list Obj) :
  localStorage !! LOCAL_STORAGE_KEY = Some serialized →
  JSON_parse serialized = Some stored →
  let loaded := loadEventsFromLocalStorage now localStorage in
  loaded ≡ₚ List.filter (notPast now) stored
  ∧ (∀ e, e ∈ loaded → e ∈ stored ∧ ∃ t, eventDateTime e = Some t ∧ now ≤ t)
  ∧ StronglySorted
      (λ a b, default 0 (eventDateTime a) ≤ default 0 (eventDateTime b))
      loaded.
Proof.
  intros Hget Hparse. unfold loadEventsFromLocalStorage.
  rewrite Hget, Hparse. simpl.
  assert (Hfuture : ∀ e, e ∈ List.filter (notPast now) stored →
            e ∈ stored ∧ ∃ t, eventDateTime e = Some t ∧ now ≤ t).
  { intros e He. apply list_elem_of_In, filter_In in He as [Hin He].
    split; [by apply list_elem_of_In|].
    unfold notPast in He. destruct (eventDateTime e) as [t|]; [|done].
    exists t. split; [done|]. by apply Z.leb_le. }
  split; [apply Array_sort_Permutation|]. split.
  - intros e He. rewrite Array_sort_Permutation in He. by apply Hfuture.
  - apply Array_sort_sorted. intros a b Ha Hb.
    destruct (Hfuture a Ha) as (_ & ta & -> & _).
    destruct (Hfuture b Hb) as (_ & tb & -> & _). done.
Qed.

(** Loading the payment history keeps every stored payment, each once; when
    every payment date parses they come most recent first. *)
Theorem loadPaymentHistory_keeps_all_most_recent_first
    (localStorage : gmap string string) (serialized : string)
    (stored : list Obj) :
  localStorage !! LOCAL_STORAGE_PAYMENT_HISTORY_KEY = Some serialized →
  JSON_parse serialized = Some stored →
  let loaded := loadPaymentHistoryFromLocalStorage localStorage in
  loaded ≡ₚ stored
  ∧ (Forall (λ p : Obj, is_Some (Date_getTime (get p "paymentDate"))) stored →
     StronglySorted
       (λ a b, default 0 (Date_getTime (get b "paymentDate"))
               ≤ default 0 (Date_getTime (get a "paymentDate")))
       loaded).
Proof.
  intros Hget Hparse. unfold loadPaymentHistoryFromLocalStorage.
  rewrite Hget, Hparse. simpl. split; [apply Array_sort_Permutation|].
  intros Hall. rewrite Forall_forall in Hall.
  eapply StronglySorted_weaken;
    [|apply (Array_sort_sorted _
               (λ p : Obj, - default 0 (Date_getTime (get p "paymentDate"))))].
  - intros a b Hab. simpl in Hab. lia.
  - intros a b Ha Hb.
    destruct (Hall a Ha) as [ta ->]. destruct (Hall b Hb) as [tb ->].
    simpl. lia.
Qed.

Lemma withGoalDefaults_get (today : string) (g : Obj) :
  get (withGoalDefaults today g) "progress" = nullish (get g "progress") (JNum 0)
  ∧ get (withGoalDefaults today g) "status"
    = nullish (get g "status") GoalStatus_NotStarted
  ∧ get (withGoalDefaults today g) "creationDate"
    = js_or (get g "creationDate") (JStr today)
  ∧ ∀ k, k ≠ "progress" → k ≠ "status" → k ≠ "creationDate" →
         withGoalDefaults today g !! k = g !! k.
Proof.
  unfold withGoalDefaults. repeat split.
  - rewrite !get_insert_ne by done. apply get_insert_eq.
  - rewrite get_insert_ne by done. apply get_insert_eq.
  - apply get_insert_eq.
  - intros k H1 H2 H3. by rewrite !lookup_insert_ne.
Qed.

(** Loading the goals keeps every stored goal, each once, with every other
    property as stored and the three defaults filled in: progress and status
    are never null or undefined and, the date of the day being a non-empty
    string, the creation date is never falsy; a goal stored with the three
    properties set is loaded as it is; when every target date parses the
    goals come in ascending order of target date. *)
Theorem loadGoals_fills_defaults_and_sorts
    (today : string) (localStorage : gmap string string) (serialized : string)
    (stored : list Obj) :
  today ≠ EmptyString →
  localStorage !! LOCAL_STORAGE_GOALS_KEY = Some serialized →
  JSON_parse serialized = Some stored →
  let loaded := loadGoalsFromLocalStorage today localStorage in
  loaded ≡ₚ map (withGoalDefaults today) stored
  ∧ (∀ g, g ∈ loaded →
       get g "progress" ≠ JUndefined ∧ get g "progress" ≠ JNull
       ∧ get g "status" ≠ JUndefined ∧ get g "status" ≠ JNull
       ∧ truthy (get g "creationDate") = true)
  ∧ (∀ g p s c, g ∈ stored →
       g !! "progress" = Some p → p ≠ JUndefined → p ≠ JNull →
       g !! "status" = Some s → s ≠ JUndefined → s ≠ JNull →
       g !! "creationDate" = Some c → truthy c = true →
       g ∈ loaded)
  ∧ (Forall (λ g : Obj, is_Some (Date_getTime (get g "targetDate"))) stored →
     StronglySorted
       (λ a b, default 0 (Date_getTime (get a "targetDate"))
               ≤ default 0 (Date_getTime (get b "targetDate")))
       loaded).
Proof.
  intros Htoday Hget Hparse. unfold loadGoalsFromLocalStorage.
  rewrite Hget, Hparse. simpl.
  split; [apply Array_sort_Permutation|]. split; [|split].
  - intros g Hg. rewrite Array_sort_Permutation in Hg.
    apply list_elem_of_In, in_map_iff in Hg as (g0 & <- & _).
    destruct (withGoalDefaults_get today g0) as (-> & -> & -> & _).
    repeat split.
    + by destruct (get g0 "progress").
    + by destruct (get g0 "progress").
    + by destruct (get g0 "status").
    + by destruct (get g0 "status").
    + unfold js_or. destruct (truthy (get g0 "creationDate")) eqn:Hc; [done|].
      simpl. by apply negb_true_iff, String.eqb_neq.
  - intros g p s c Hg Hp Hp1 Hp2 Hs Hs1 Hs2 Hc Hct.
    rewrite Array_sort_Permutation.
    apply list_elem_of_In, in_map_iff. exists g.
    split; [|by apply list_elem_of_In].
    unfold withGoalDefaults, get, js_or. rewrite Hp, Hs, Hc. simpl. rewrite Hct.
    rewrite (insert_id g "progress") by (rewrite Hp; by destruct p).
    rewrite (insert_id g "status") by (rewrite Hs; by destruct s).
    by rewrite insert_id.
  - intros Hall. rewrite Forall_forall in Hall.
    apply Array_sort_sorted. intros a b Ha Hb.
    apply list_elem_of_In, in_map_iff in Ha as (a0 & <- & Ha%list_elem_of_In).
    apply list_elem_of_In, in_map_iff in Hb as (b0 & <- & Hb%list_elem_of_In).
    destruct (withGoalDefaults_get today a0) as (_ & _ & _ & Hka).
    destruct (withGoalDefaults_get today b0) as (_ & _ & _ & Hkb).
    unfold get. rewrite Hka, Hkb by done. fold (get a0 "targetDate").
    fold (get b0 "targetDate").
    destruct (Hall a0 Ha) as [ta ->]. destruct (Hall b0 Hb) as [tb ->]. done.
Qed.

(** A task list that was saved loads back with [completed] defaulted, and
    unchanged when every task has its [completed] set, provided the host
    parses what it serialized. *)
Theorem saved_tasks_load_back
    (tasks : list Obj) (serialized : string)
    (localStorage : gmap string string) :
  JSON_stringify tasks = Some serialized →
  JSON_parse serialized = Some tasks →
  let reloaded :=
    loadRecurringTasksFromLocalStorage
      (saveRecurringTasksToLocalStorage tasks localStorage) in
  reloaded
  = map (λ t : Obj,
           <["completed" := nullish (get t "completed") (JBool false)]> t) tasks
  ∧ (Forall (λ t : Obj, ∃ c, t !! "completed" = Some c
                             ∧ c ≠ JUndefined ∧ c ≠ JNull) tasks →
     reloaded = tasks).
Proof.
  intros Hs Hp. unfold loadRecurringTasksFromLocalStorage,
    saveRecurringTasksToLocalStorage.
  rewrite (saveTo_lookup_eq _ serialized) by done. rewrite Hp. simpl.
  split; [done|]. intros Hall. clear Hs Hp.
  induction Hall as [|t ts (c & Hc & Hc1 & Hc2) _ IH]; [done|].
  simpl. rewrite IH. f_equal.
  apply insert_id. unfold get. rewrite Hc. by destruct c.
Qed.

(** The four slots are independent: saving one collection changes what no
    other loader returns. *)
Theorem saving_one_slot_leaves_the_other_loads
    (now : Z) (today : string) (records : list Obj)
    (localStorage : gmap string string) :
  (let ls' := saveRecurringTasksToLocalStorage records localStorage in
   loadEventsFromLocalStorage now ls' = loadEventsFromLocalStorage now localStorage
   ∧ loadPaymentHistoryFromLocalStorage ls'
     = loadPaymentHistoryFromLocalStorage localStorage
   ∧ loadGoalsFromLocalStorage today ls'
     = loadGoalsFromLocalStorage today localStorage)
  ∧ (let ls' := saveEventsToLocalStorage records localStorage in
     loadRecurringTasksFromLocalStorage ls'
     = loadRecurringTasksFromLocalStorage localStorage
     ∧ loadPaymentHistoryFromLocalStorage ls'
       = loadPaymentHistoryFromLocalStorage localStorage
     ∧ loadGoalsFromLocalStorage today ls'
       = loadGoalsFromLocalStorage today localStorage)
  ∧ (let ls' := savePaymentHistoryToLocalStorage records localStorage in
     loadEventsFromLocalStorage now ls'
     = loadEventsFromLocalStorage now localStorage
     ∧ loadRecurringTasksFromLocalStorage ls'
       = loadRecurringTasksFromLocalStorage localStorage
     ∧ loadGoalsFromLocalStorage today ls'
       = loadGoalsFromLocalStorage today localStorage)
  ∧ (let ls' := saveGoalsToLocalStorage records localStorage in
     loadEventsFromLocalStorage now ls'
     = loadEventsFromLocalStorage now localStorage
     ∧ loadRecurringTasksFromLocalStorage ls'
       = loadRecurringTasksFromLocalStorage localStorage
     ∧ loadPaymentHistoryFromLocalStorage ls'
       = loadPaymentHistoryFromLocalStorage localStorage).
Proof.
  unfold loadEventsFromLocalStorage, loadRecurringTasksFromLocalStorage,
    loadPaymentHistoryFromLocalStorage, loadGoalsFromLocalStorage,
    saveEventsToLocalStorage, saveRecurringTasksToLocalStorage,
    savePaymentHistoryToLocalStorage, saveGoalsToLocalStorage.
  repeat split; by rewrite saveTo_lookup_ne.
Qed.
End StorageFacts.

(** ** The goal scan and the reminders *)

Section ReminderFacts.
Context `{Host}.



(** A completed or cancelled goal is in no scan, whatever the threshold. *)
Lemma getUpcomingGoalReminders_open (now : Z) (goalList : list Obj)
    (threshold : Z) (g : Obj) :
  In g (getUpcomingGoalReminders now goalList threshold) →
  In g goalList ∧ goalOpen g = true.
Proof.
  unfold getUpcomingGoalReminders.
  assert (Hfold : ∀ acc,
            In g (fold_left (scanGoal (Date_startOfDay now) threshold)
                    goalList acc) →
            In g acc ∨ (In g goalList ∧ goalOpen g = true)).
  { induction goalList as [|g0 gs IH]; intros acc Hin; simpl in *; [by left|].
    apply IH in Hin as [Hin|[Hin Ho]]; [|right; split; [by right|done]].
    unfold scanGoal in Hin.
    destruct (strict_eq (get g0 "status") GoalStatus_Completed) eqn:Hc; simpl in Hin;
      [by left|].
    destruct (strict_eq (get g0 "status") GoalStatus_Cancelled) eqn:Hx; simpl in Hin;
      [by left|].
    destruct (Date_startOfDay <$> Date_getTime (get g0 "targetDate")); [|by left].
    case_match; [|by left].
    apply in_app_or in Hin as [Hin|[<-|[]]]; [by left|].
    right. split; [by left|]. unfold goalOpen. by rewrite Hc, Hx. }
  intros Hin. by apply Hfold in Hin as [[]|Hin].
Qed.

(** *** Deduplication *)

(** The texts still to post after the new ones were appended to the log,
    whatever was appended after them: none. *)
Lemma nothing_to_repost (texts : list string) (ms extra : list Message) :
  let new :=
    List.filter
      (λ msg, negb (existsb (λ m, String.eqb (content m) msg) ms)) texts in
  List.filter
    (λ msg, negb (existsb (λ m, String.eqb (content m) msg)
                    ((ms ++ map aiMessage new) ++ extra)))
    texts
  = [].
Proof.
  intros new. apply filter_none. intros msg Hmsg.
  rewrite existsb_app, existsb_content_app.
  destruct (existsb (λ m, String.eqb (content m) msg) ms) eqn:Hseen; [done|].
  simpl. apply negb_false_iff, orb_true_iff. left.
  apply existsb_exists. exists msg. split; [|apply String.eqb_refl].
  apply filter_In. split; [exact Hmsg|]. by rewrite Hseen.
Qed.

Lemma checkAndPostReminders_persists (now : Z) (st st' : State)
    (extra : list Message) :
  recurringTasks st' = recurringTasks st →
  messages st' = messages (checkAndPostReminders now st) ++ extra →
  checkAndPostReminders now st' = st'.
Proof.
  intros Htasks Hmsgs. unfold checkAndPostReminders at 1. rewrite Htasks.
  set (upcoming := getUpcomingDueDates now (recurringTasks st)
                     DEFAULT_DAYS_THRESHOLD) in *.
  destruct (0 <? length upcoming)%nat eqn:Hup; [|done].
  assert (Hlog : ∃ extra', messages st'
            = (messages st
               ++ map aiMessage
                    (List.filter
                       (λ msg, negb (existsb (λ m, String.eqb (content m) msg)
                                       (messages st)))
                       (map reminderText upcoming))) ++ extra').
  { unfold checkAndPostReminders in Hmsgs. fold upcoming in Hmsgs.
    rewrite Hup in Hmsgs.
    destruct (0 <? length _)%nat eqn:Hnew in Hmsgs; [by exists extra|].
    apply Nat.ltb_ge in Hnew.
    destruct (List.filter _ _) as [|? ?] eqn:Hf in Hnew; [|simpl in Hnew; lia].
    rewrite Hf. simpl. rewrite app_nil_r. by exists extra. }
  destruct Hlog as [extra' ->]. by rewrite nothing_to_repost.
Qed.

Lemma checkAndPostGoalReminders_persists (now : Z) (st st' : State)
    (extra : list Message) :
  goals st' = goals st →
  messages st' = messages (checkAndPostGoalReminders now st) ++ extra →
  checkAndPostGoalReminders now st' = st'.
Proof.
  intros Hgoals Hmsgs. unfold checkAndPostGoalReminders at 1. rewrite Hgoals.
  set (upcoming := getUpcomingGoalReminders now (goals st)
                     DEFAULT_DAYS_THRESHOLD) in *.
  destruct (0 <? length upcoming)%nat eqn:Hup; [|done].
  assert (Hlog : ∃ extra', messages st'
            = (messages st
               ++ map aiMessage
                    (List.filter
                       (λ msg, negb (existsb (λ m, String.eqb (content m) msg)
                                       (messages st)))
                       (map goalReminderText upcoming))) ++ extra').
  { unfold checkAndPostGoalReminders in Hmsgs. fold upcoming in Hmsgs.
    rewrite Hup in Hmsgs.
    destruct (0 <? length _)%nat eqn:Hnew in Hmsgs; [by exists extra|].
    apply Nat.ltb_ge in Hnew.
    destruct (List.filter _ _) as [|? ?] eqn:Hf in Hnew; [|simpl in Hnew; lia].
    rewrite Hf. simpl. rewrite app_nil_r. by exists extra. }
  destruct Hlog as [extra' ->]. by rewrite nothing_to_repost.
Qed.

Lemma checkAndPostGoalReminders_fields (now : Z) (st : State) :
  let st' := checkAndPostGoalReminders now st in
  recurringTasks st' = recurringTasks st ∧ goals st' = goals st
  ∧ ∃ posted, messages st' = messages st ++ posted.
Proof.
  unfold checkAndPostGoalReminders.
  repeat (case_match; simpl); repeat split;
    first [by eexists | (exists []; by rewrite app_nil_r)].
Qed.

Lemma checkAndPostReminders_log (now : Z) (st : State) :
  let st' := checkAndPostReminders now st in
  goals st' = goals st ∧ ∃ posted, messages st' = messages st ++ posted.
Proof.
  unfold checkAndPostReminders.
  repeat (case_match; simpl); repeat split;
    first [by eexists | (exists []; by rewrite app_nil_r)].
Qed.

(** Once a reminder scan has run, a later scan at the same clock reading
    posts nothing, however many messages were appended to the log in
    between, as long as the collection it scans is the same: for the task
    reminders and for the goal reminders. *)
Theorem posted_reminders_are_never_repeated
    (now : Z) (st st' : State) (later : list Message) :
  recurringTasks st' = recurringTasks st →
  goals st' = goals st →
  (messages st' = messages (checkAndPostReminders now st) ++ later →
   checkAndPostReminders now st' = st')
  ∧ (messages st' = messages (checkAndPostGoalReminders now st) ++ later →
     checkAndPostGoalReminders now st' = st').
Proof.
  intros Ht Hg. split; intros Hm.
  - by eapply checkAndPostReminders_persists.
  - by eapply checkAndPostGoalReminders_persists.
Qed.

(** The goal reminders are idempotent: for every goal list and log, a second
    scan-and-post at the same clock reading appends nothing, and neither does
    a second run of the goal effect. *)
Theorem goal_reminder_posting_idempotent (now : Z) (st : State) :
  checkAndPostGoalReminders now (checkAndPostGoalReminders now st)
  = checkAndPostGoalReminders now st
  ∧ goalReminderEffect now (goalReminderEffect now st)
    = goalReminderEffect now st.
Proof.
  assert (Hgoal : ∀ s, checkAndPostGoalReminders now
                         (checkAndPostGoalReminders now s)
                       = checkAndPostGoalReminders now s).
  { intros s. destruct (checkAndPostGoalReminders_fields now s) as (_ & Hg & _).
    eapply (checkAndPostGoalReminders_persists now s _ []); [done|].
    by rewrite app_nil_r. }
  split; [apply Hgoal|].
  unfold goalReminderEffect.
  destruct (length (goals st) =? 0)%nat eqn:Hlen; [by rewrite Hlen|].
  destruct (checkAndPostGoalReminders_fields now st) as (_ & -> & _).
  by rewrite Hlen, Hgoal.
Qed.
End ReminderFacts.

(** ** The coordinator over event sequences *)

Section CoordinatorFacts.
Context `{Host}.

Ltac log_grows :=
  simpl; repeat (apply prefix_app_r); reflexivity.

Lemma sendMessage_log (text : string) (result : GenerateResult) (st : State) :
  messages st `prefix_of` messages (sendMessage text result st).
Proof.
  unfold sendMessage, withArgs, sendMessage_catch.
  repeat (case_match; simpl); log_grows.
Qed.

Lemma handleConfirm_log (now : Z) (today : string) (followUp : FollowUp)
    (st : State) :
  messages st `prefix_of` messages (handleConfirm now today followUp st).
Proof.
  unfold handleConfirm.
  destruct (pendingActionDetails st) as [details|]; [|done].
  destruct (pendingActionType st) as [[]|]; [..|done]; simpl;
    repeat (case_match; simpl); log_grows.
Qed.

Lemma step_log (st : State) (e : Event) :
  messages st `prefix_of` messages (step st e).
Proof.
  destruct e as [text result|taskId cur|now today f|f|now]; simpl.
  - apply sendMessage_log.
  - unfold handleToggleTaskCompletion. by destruct (List.find _ _).
  - apply handleConfirm_log.
  - unfold handleCancel. repeat (case_match; simpl); log_grows.
  - unfold reminderEffect. case_match; [done|].
    destruct (checkAndPostReminders_log now st) as (_ & posted & ->).
    by apply prefix_app_r.
Qed.

(** The conversation log is append-only: after any sequence of events the
    log starts with the log it had before; no message is ever removed,
    reordered or rewritten. *)
Theorem conversation_log_is_append_only (es : list Event) (st : State) :
  messages st `prefix_of` messages (run es st).
Proof.
  revert st. induction es as [|e es IH]; intros st; [done|].
  simpl. etransitivity; [apply step_log|apply IH].
Qed.

Lemma step_collections (st : State) (e : Event) :
  match e with
  | UserConfirms _ _ _ => True
  | _ => collections (step st e) = collections st
  end.
Proof.
  destruct e as [text result|taskId cur|now today f|f|now]; simpl; [| |done| |].
  - unfold sendMessage, withArgs, sendMessage_catch.
    by repeat (case_match; simpl).
  - unfold handleToggleTaskCompletion. by destruct (List.find _ _).
  - unfold handleCancel. by repeat (case_match; simpl).
  - unfold reminderEffect, checkAndPostReminders.
    by repeat (case_match; simpl).
Qed.

(** The commit does not wait for the model and is never rolled back: the
    four collections after a confirm are the same whether the follow-up call
    answers, answers nothing or fails. *)
Theorem commit_does_not_depend_on_follow_up
    (now : Z) (today : string) (f1 f2 : FollowUp) (st : State) :
  collections (handleConfirm now today f1 st)
  = collections (handleConfirm now today f2 st).
Proof.
  unfold handleConfirm.
  destruct (pendingActionDetails st) as [details|]; [|done].
  destruct (pendingActionType st) as [[]|]; [..|done]; simpl;
    by repeat (case_match; simpl).
Qed.

(** What a confirmed creating action says in the log.  With a chat session
    and a pending function call it appends exactly one assistant message:
    the model's answer when it is a non-empty text.  Without a chat session
    the record is still appended to its collection but the log is left as it
    was: the commit is silent. *)
Theorem confirm_reports_once_or_stays_silent
    (now : Z) (today : string) (followUp : FollowUp) (st : State)
    (details : Obj) (type : ActionType) :
  pendingActionDetails st = Some details →
  pendingActionType st = Some type →
  creates type = true →
  let st' := handleConfirm now today followUp st in
  (chatSession st = true → is_Some (pendingFunctionCall st) →
   ∃ m, messages st' = messages st ++ [m] ∧ role m = AI
        ∧ ∀ answer, followUp = FollowUpText (Some answer) →
                    answer ≠ EmptyString → content m = answer)
  ∧ (chatSession st = false →
     messages st' = messages st
     ∧ length (collection type st') = S (length (collection type st))).
Proof.
  intros Hd Ht Hc. simpl. split.
  - intros Hchat Hfc. unfold handleConfirm. rewrite Hd, Ht, Hchat.
    rewrite (bool_decide_eq_true_2 _ Hfc).
    destruct type; try discriminate Hc; simpl;
      (destruct followUp as [[answer|]|]; simpl;
       eexists; (split; [reflexivity|]); (split; [reflexivity|]);
       intros a Ha Hne; simplify_eq; simpl;
       apply String.eqb_neq in Hne; by rewrite Hne).
  - intros Hchat. unfold handleConfirm. rewrite Hd, Ht, Hchat.
    destruct type; try discriminate Hc; simpl; rewrite andb_false_r; simpl;
      (split; [done|]); rewrite length_app; simpl; lia.
Qed.

(** A cancel always appends exactly one assistant message and ends with the
    busy flag cleared; when the pending action is a toggle, or there is no
    chat session, the message is the plain notice whatever the model would
    answer. *)
Theorem cancel_appends_exactly_one_notice (followUp : FollowUp) (st : State) :
  let st' := handleCancel followUp st in
  (∃ m, messages st' = messages st ++ [m] ∧ role m = AI)
  ∧ loading st' = false
  ∧ (pendingActionType st = Some confirmTaskCompletion ∨ chatSession st = false →
     messages st' = messages st ++ [aiMessage "Action cancelled."]).
Proof.
  simpl. split; [|split].
  - unfold handleCancel. repeat (case_match; simpl); by eexists.
  - apply handleCancel_clears.
  - intros [Ht|Hchat]; unfold handleCancel.
    + by rewrite Ht.
    + rewrite Hchat. by rewrite andb_false_r.
Qed.

(** A function call the coordinator does not know opens no dialog: the
    pending cells and the collections are untouched, the user's message and
    one notice are appended, and the busy flag is cleared. *)
Theorem unknown_function_call_opens_no_dialog
    (text : string) (response : GenerateContentResponse) (fc : FunctionCall)
    (rest : list FunctionCall) (st : State) :
  accepted text st →
  functionCalls response = fc :: rest →
  (∀ name, fc_name fc = JStr name → intentOf name = None) →
  let st' := sendMessage text (Responds response) st in
  pendingActionDetails st' = pendingActionDetails st
  ∧ pendingActionType st' = pendingActionType st
  ∧ pendingFunctionCall st' = pendingFunctionCall st
  ∧ showConfirmationDialog st' = showConfirmationDialog st
  ∧ collections st' = collections st
  ∧ loading st' = false
  ∧ ∃ notice,
      messages st'
      = messages st ++ [ {| role := User; content := text;
                            groundingSources := None |}; aiMessage notice ].
Proof.
  intros [Htrim Hload] Hcalls Hunknown. unfold sendMessage.
  apply String.eqb_neq in Htrim. rewrite Htrim, Hload, Hcalls. simpl.
  assert (Hname : ∀ name, intentOf name = None →
            String.eqb name "createCalendarEvent" = false
            ∧ String.eqb name "createRecurringTask" = false
            ∧ String.eqb name "payBill" = false
            ∧ String.eqb name "createGoal" = false).
  { intros name. unfold intentOf. by repeat case_match. }
  destruct (fc_name fc) as [| |b|q|name] eqn:Hfc; simpl;
    try destruct (Hname name (Hunknown name eq_refl)) as (-> & -> & -> & ->);
    repeat split; eexists; simpl; by rewrite <- app_assoc.
Qed.

(** A known function call that carries no argument object opens no dialog
    either: the failure is caught, reported in the log after the user's
    message and kept as the error, and the busy flag is cleared. *)
Theorem function_call_without_arguments_is_reported
    (text name : string) (response : GenerateContentResponse)
    (fc : FunctionCall) (rest : list FunctionCall) (type : ActionType)
    (draft : Obj → Obj) (st : State) :
  accepted text st →
  functionCalls response = fc :: rest →
  fc_name fc = JStr name →
  intentOf name = Some (type, draft) →
  fc_args fc = None →
  let st' := sendMessage text (Responds response) st in
  pendingActionDetails st' = pendingActionDetails st
  ∧ pendingActionType st' = pendingActionType st
  ∧ showConfirmationDialog st' = showConfirmationDialog st
  ∧ collections st' = collections st
  ∧ loading st' = false
  ∧ is_Some (error st')
  ∧ messages st'
    = messages st
      ++ [ {| role := User; content := text; groundingSources := None |};
           aiMessage ("I'm sorry, I encountered an error: "
                        +:+ TypeError_destructure +:+ ".") ].
Proof.
  intros [Htrim Hload] Hcalls Hname Hint Hargs. unfold sendMessage.
  apply String.eqb_neq in Htrim. rewrite Htrim, Hload, Hcalls, Hname. simpl.
  unfold intentOf in Hint. unfold withArgs. rewrite Hargs.
  repeat (case_match;
          [repeat split; [by eexists|simpl; by rewrite <- app_assoc]|]).
  done.
Qed.
End CoordinatorFacts.

(** ** Strict equality *)

Lemma strict_eq_JStr_r (v : JsVal) (s : string) :
  strict_eq v (JStr s) = true → v = JStr s.
Proof.
  destruct v; simpl; try done. intros Heq. by apply String.eqb_eq in Heq as ->.
Qed.

Lemma strict_eq_sym (a b : JsVal) : strict_eq a b = strict_eq b a.
Proof.
  destruct a, b; simpl; try done.
  - by destruct b, b0.
  - apply eq_true_iff_eq. rewrite !Qeq_bool_iff. split; intros Hq; by symmetry.
  - apply String.eqb_sym.
Qed.

Lemma strict_eq_trans (a b c : JsVal) :
  strict_eq a b = true → strict_eq b c = true → strict_eq a c = true.
Proof.
  destruct a, b, c; simpl; try done.
  - destruct b, b0, b1; done.
  - rewrite !Qeq_bool_iff. intros H1 H2. by etransitivity.
  - rewrite !String.eqb_eq. congruence.
Qed.

Lemma strict_eq_congr_l (a b c : JsVal) :
  strict_eq a b = true → strict_eq c a = strict_eq c b.
Proof.
  intros Hab. destruct (strict_eq c b) eqn:Hcb.
  - apply (strict_eq_trans c b a); [done|]. by rewrite strict_eq_sym.
  - destruct (strict_eq c a) eqn:Hca; [|done].
    by rewrite (strict_eq_trans c a b) in Hcb.
Qed.

(** ** Direct edits and views *)

Section EditFacts.
Context `{Host}.

(** Changing the status of a goal changes nothing else: the goal list keeps
    its length and order, a goal with another id is untouched, a goal with
    the given id keeps every property but its status, and the other
    collections, the log and the pending action are as before. *)
Theorem handleUpdateGoalStatus_changes_only_the_status
    (goalId newStatus : JsVal) (st : State) :
  let st' := handleUpdateGoalStatus goalId newStatus st in
  length (goals st') = length (goals st)
  ∧ (∀ (i : nat) (g : Obj), goals st !! i = Some g →
       ∃ g', goals st' !! i = Some g'
             ∧ (∀ k, k ≠ "status" → g' !! k = g !! k)
             ∧ (strict_eq (get g "id") goalId = false → g' = g)
             ∧ (strict_eq (get g "id") goalId = true →
                get g' "status" = newStatus))
  ∧ calendarEvents st' = calendarEvents st
  ∧ recurringTasks st' = recurringTasks st
  ∧ paymentHistory st' = paymentHistory st
  ∧ messages st' = messages st
  ∧ pendingActions st' = pendingActions st.
Proof.
  simpl. split; [by rewrite length_map|]. split; [|done].
  intros i g Hi. eexists. split.
  - change (map ?f ?l) with (f <$> l). by rewrite list_lookup_fmap, Hi.
  - simpl. destruct (strict_eq (get g "id") goalId).
    + split; [intros k Hk; by rewrite lookup_insert_ne|].
      split; [done|]. intros _. apply get_insert_eq.
    + done.
Qed.

(** Marking a goal completed or cancelled silences it: no goal with that id
    is in any later goal scan. *)
Theorem closing_a_goal_silences_its_reminders
    (goalId newStatus : JsVal) (st : State) (now threshold : Z) (g : Obj) :
  newStatus = GoalStatus_Completed ∨ newStatus = GoalStatus_Cancelled →
  In g (getUpcomingGoalReminders now
          (goals (handleUpdateGoalStatus goalId newStatus st)) threshold) →
  strict_eq (get g "id") goalId = false.
Proof.
  intros Hclosed Hin.
  apply getUpcomingGoalReminders_open in Hin as [Hin Hopen].
  simpl in Hin. apply in_map_iff in Hin as (g0 & <- & _).
  destruct (strict_eq (get g0 "id") goalId) eqn:Hid; [|done].
  exfalso. unfold goalOpen in Hopen. rewrite get_insert_eq in Hopen.
  by destruct Hclosed as [-> | ->].
Qed.

(** The goal filters: All shows every goal; no goal is shown under both
    Active and Completed; a cancelled goal is shown under neither. *)
Theorem goal_filters_do_not_overlap (goalList : list Obj) :
  filteredGoals All goalList = goalList
  ∧ (∀ g, In g (filteredGoals Active goalList) →
          ¬ In g (filteredGoals Completed goalList))
  ∧ (∀ g, strict_eq (get g "status") GoalStatus_Cancelled = true →
          ¬ In g (filteredGoals Active goalList)
          ∧ ¬ In g (filteredGoals Completed goalList)).
Proof.
  unfold filteredGoals. split; [|split].
  - induction goalList as [|g gs IH]; simpl; [done|]. by rewrite IH.
  - intros g Ha Hc. apply filter_In in Ha as [_ Ha].
    apply filter_In in Hc as [_ Hc]. apply strict_eq_JStr_r in Hc.
    rewrite Hc in Ha. done.
  - intros g Hx. apply strict_eq_JStr_r in Hx.
    split; intros Hin; apply filter_In in Hin as [_ Hin];
      rewrite Hx in Hin; done.
Qed.

(** Saving an edited task closes the editor and replaces, in place, the
    tasks that have its id; when no task has that id nothing is replaced and
    nothing is added.  The other collections and the log are as before. *)
Theorem handleSaveEditedTask_replaces_in_place
    (updatedTask : Obj) (ed : Editing) :
  let before := recurringTasks (appState ed) in
  let ed' := handleSaveEditedTask updatedTask ed in
  let after := recurringTasks (appState ed') in
  editingTask ed' = None
  ∧ length after = length before
  ∧ (∀ (i : nat) (t : Obj), before !! i = Some t →
       after !! i
       = Some (if strict_eq (get t "id") (get updatedTask "id")
               then updatedTask else t))
  ∧ (Forall (λ t : Obj, strict_eq (get t "id") (get updatedTask "id") = false)
       before → after = before)
  ∧ calendarEvents (appState ed') = calendarEvents (appState ed)
  ∧ paymentHistory (appState ed') = paymentHistory (appState ed)
  ∧ goals (appState ed') = goals (appState ed)
  ∧ messages (appState ed') = messages (appState ed).
Proof.
  simpl. split; [done|]. split; [by rewrite length_map|].
  split; [|split; [|done]].
  - intros i t Hi. change (map ?f ?l) with (f <$> l).
    by rewrite list_lookup_fmap, Hi.
  - intros Hall. induction Hall as [|t ts Ht _ IH]; [done|].
    simpl. by rewrite Ht, IH.
Qed.

(** What the edit dialog can change.  The task it hands back has the id and
    the last execution date of the task it was opened on, and every property
    other than title, recurrence, dueDate and completed as it was.  A due
    date left empty is stored as undefined, and the saved task is then in no
    reminder scan; so is a task saved as completed. *)
Theorem edit_dialog_keeps_identity_and_can_silence
    (t : Obj) (editedTitle editedRecurrence editedDueDate editedCompleted : JsVal) :
  let updatedTask :=
    EditRecurringTaskDialog_handleSubmit t editedTitle editedRecurrence
      editedDueDate editedCompleted in
  get updatedTask "id" = get t "id"
  ∧ get updatedTask "lastExecutionDate" = get t "lastExecutionDate"
  ∧ (∀ k, k ≠ "title" → k ≠ "recurrence" → k ≠ "dueDate" → k ≠ "completed" →
          updatedTask !! k = t !! k)
  ∧ (truthy editedDueDate = false → get updatedTask "dueDate" = JUndefined)
  ∧ (truthy editedDueDate = false ∨ truthy editedCompleted = true →
     ∀ (ed : Editing) (now threshold : Z),
       ¬ In updatedTask
           (getUpcomingDueDates now
              (recurringTasks (appState (handleSaveEditedTask updatedTask ed)))
              threshold)).
Proof.
  simpl. unfold EditRecurringTaskDialog_handleSubmit.
  split; [by rewrite !get_insert_ne|].
  split; [by rewrite !get_insert_ne|].
  split; [intros k H1 H2 H3 H4; by rewrite !lookup_insert_ne|].
  split.
  - intros Hdue. rewrite get_insert_ne by done. rewrite get_insert_eq.
    unfold js_or. by rewrite Hdue.
  - intros Hsilent ed now threshold Hin.
    unfold getUpcomingDueDates in Hin. rewrite scan_fold in Hin. simpl in Hin.
    apply filter_In in Hin as [_ Hdue].
    apply spec_reminderDue_not_completed in Hdue as [Hc Hd].
    rewrite get_insert_eq in Hc. rewrite get_insert_ne in Hd by done.
    rewrite get_insert_eq in Hd. unfold js_or in Hd.
    destruct Hsilent as [Hs|Hs]; [by rewrite Hs in Hd|congruence].
Qed.

(** The prompt of a toggle names the state the task will get: asked to
    toggle a task whose checkbox is unchecked, the dialog asks to mark it as
    completed, and the other way round. *)
Theorem toggle_prompt_names_the_new_state
    (taskId cur : JsVal) (st : State) (taskToToggle : Obj) :
  List.find (λ t : Obj, strict_eq (get t "id") taskId) (recurringTasks st)
    = Some taskToToggle →
  getConfirmationMessage (handleToggleTaskCompletion taskId cur st)
  = "Are you sure you want to mark " +:+ dq
      +:+ ToString (get taskToToggle "title") +:+ dq +:+ " as "
      +:+ (if truthy cur then "not completed" else "completed") +:+ "?".
Proof.
  intros Hfind. unfold handleToggleTaskCompletion. rewrite Hfind.
  unfold getConfirmationMessage. simpl.
  rewrite get_insert_eq, get_insert_ne by done. simpl.
  by destruct (truthy cur).
Qed.
End EditFacts.

(** ** Toggling twice, and fresh ids *)

Section CommitFacts.
Context `{Host}.

Lemma find_map_same_test {A : Type} (p : A → bool) (f : A → A) (l : list A) :
  (∀ x, p (f x) = p x) →
  List.find p (map f l) = f <$> List.find p l.
Proof.
  intros Hp. induction l as [|x l IH]; simpl; [done|].
  rewrite Hp. by destruct (p x).
Qed.

(** The task list after a toggle request for an id and its confirm. *)
Lemma toggle_and_confirm (taskId cur : JsVal) (st : State) (t : Obj)
    (now : Z) (today : string) (followUp : FollowUp) :
  List.find (λ x : Obj, strict_eq (get x "id") taskId) (recurringTasks st)
    = Some t →
  recurringTasks
    (handleConfirm now today followUp (handleToggleTaskCompletion taskId cur st))
  = map (λ x : Obj,
           if strict_eq (get x "id") taskId
           then <["completed" := JBool (negb (truthy cur))]> x else x)
        (recurringTasks st).
Proof.
  intros Hfind.
  destruct (handleToggleTaskCompletion_found taskId cur st t Hfind)
    as (Hd & Ht & _ & _ & Htasks).
  destruct (handleConfirm_toggle now today followUp _ _ Hd Ht) as (-> & _).
  rewrite Htasks. apply map_ext. intros x.
  rewrite get_insert_eq, get_insert_ne by done.
  apply find_some in Hfind as [_ Hid].
  by rewrite (strict_eq_congr_l (get t "id") taskId (get x "id") Hid).
Qed.

(** Toggling a task and confirming, then toggling it back and confirming,
    restores the task list exactly, when the tasks with that id are stored
    with the completion state the first toggle was asked from. *)
Theorem toggling_twice_restores_the_task_list
    (taskId : JsVal) (c : bool) (st : State) (t : Obj)
    (now1 now2 : Z) (today1 today2 : string) (f1 f2 : FollowUp) :
  List.find (λ x : Obj, strict_eq (get x "id") taskId) (recurringTasks st)
    = Some t →
  Forall (λ x : Obj, strict_eq (get x "id") taskId = true →
                     x !! "completed" = Some (JBool c))
    (recurringTasks st) →
  let st1 := handleConfirm now1 today1 f1
               (handleToggleTaskCompletion taskId (JBool c) st) in
  let st2 := handleConfirm now2 today2 f2
               (handleToggleTaskCompletion taskId (JBool (negb c)) st1) in
  recurringTasks st2 = recurringTasks st.
Proof.
  intros Hfind Hstored. simpl.
  pose proof (toggle_and_confirm taskId (JBool c) st t now1 today1 f1 Hfind)
    as H1.
  set (flip := λ x : Obj,
         if strict_eq (get x "id") taskId
         then <["completed" := JBool (negb (truthy (JBool c)))]> x else x) in *.
  assert (Hid : ∀ x, strict_eq (get (flip x) "id") taskId
                     = strict_eq (get x "id") taskId).
  { intros x. unfold flip. destruct (strict_eq (get x "id") taskId) eqn:Hx;
      [by rewrite get_insert_ne|done]. }
  rewrite (toggle_and_confirm taskId (JBool (negb c)) _ (flip t) now2 today2 f2).
  2:{ rewrite H1. rewrite (find_map_same_test _ flip) by exact Hid.
      by rewrite Hfind. }
  rewrite H1. rewrite map_map.
  rewrite <- (map_id (recurringTasks st)) at 2.
  apply map_ext_in. intros x Hin. apply list_elem_of_In in Hin.
  rewrite Forall_forall in Hstored. specialize (Hstored x Hin).
  rewrite Hid. unfold flip.
  destruct (strict_eq (get x "id") taskId) eqn:Hxid; [|done].
  rewrite insert_insert_eq. apply insert_id. rewrite (Hstored eq_refl).
  simpl. by rewrite negb_involutive.
Qed.

(** *** Ids under an increasing clock *)

Lemma ids_app (l : list Obj) (r : Obj) : ids (l ++ [r]) = ids l ++ [get r "id"].
Proof. unfold ids. by rewrite map_app. Qed.

(** A confirm leaves the ids of each collection as they were or appends the
    stamp of its clock reading. *)
Lemma handleConfirm_ids (now : Z) (today : string) (followUp : FollowUp)
    (st : State) :
  let st' := handleConfirm now today followUp st in
  let grows (c : State → list Obj) :=
    ids (c st') = ids (c st) ∨ ids (c st') = ids (c st) ++ [JStr (pretty now)] in
  grows calendarEvents ∧ grows recurringTasks ∧ grows paymentHistory
  ∧ grows goals.
Proof.
  simpl.
  destruct (pendingActionDetails st) as [details|] eqn:Hd;
    [destruct (pendingActionType st) as [type|] eqn:Ht|].
  - destruct (creates type) eqn:Hc.
    + destruct (handleConfirm_creates now today followUp st details type Hd Ht Hc)
        as (r & Hr & Hid & He & Hta & Hp & Hg).
      simpl in *.
      destruct type; try discriminate Hc; simpl in Hr;
        rewrite Hr, ids_app, Hid;
        repeat split;
        first [by right | left; f_equal; auto ].
    + destruct type; try discriminate Hc.
      destruct (handleConfirm_toggle now today followUp st details Hd Ht)
        as (Htasks & -> & -> & ->).
      simpl in Htasks. rewrite Htasks. repeat split; try by left.
      left. unfold ids. rewrite map_map. apply map_ext. intros x.
      destruct (strict_eq (get x "id") (get details "id"));
        [by rewrite get_insert_ne|done].
  - rewrite handleConfirm_without_pending by (by right). repeat split; by left.
  - rewrite handleConfirm_without_pending by (by left). repeat split; by left.
Qed.

Lemma StronglySorted_snoc {A : Type} (R : A → A → Prop) (l : list A) (x : A) :
  StronglySorted R l → Forall (λ y, R y x) l → StronglySorted R (l ++ [x]).
Proof.
  intros Hs Hall. induction Hs as [|y l Hs IH Hy]; simpl.
  - repeat constructor.
  - apply Forall_cons in Hall as [Hyx Hall]. constructor; [by apply IH|].
    apply Forall_app. split; [exact Hy|by constructor].
Qed.

Lemma StampedBefore_later (now : Z) (coming : list Z) (l : list Obj) :
  StampedBefore (now :: coming) l → StampedBefore coming l.
Proof.
  intros (ts & Hids & Hs & Hall). exists ts. repeat split; [done..|].
  eapply Forall_impl; [exact Hall|]. intros t Ht. by apply Forall_cons in Ht as [_ ?].
Qed.

Lemma StampedBefore_ids (coming : list Z) (l l' : list Obj) :
  ids l' = ids l → StampedBefore coming l → StampedBefore coming l'.
Proof. intros Heq (ts & Hids & Hrest). exists ts. by rewrite Heq. Qed.

Lemma StampedBefore_stamp (now : Z) (coming : list Z) (l l' : list Obj) :
  StronglySorted Z.lt (now :: coming) →
  StampedBefore (now :: coming) l →
  ids l' = ids l ++ [JStr (pretty now)] →
  StampedBefore coming l'.
Proof.
  intros Hclock (ts & Hids & Hs & Hall) Hgrow.
  apply StronglySorted_inv in Hclock as [_ Hnow].
  exists (ts ++ [now]). split; [|split].
  - by rewrite Hgrow, Hids, map_app.
  - apply StronglySorted_snoc; [done|].
    eapply Forall_impl; [exact Hall|]. intros t Ht.
    by apply Forall_cons in Ht as [? _].
  - apply Forall_app. split.
    + eapply Forall_impl; [exact Hall|]. intros t Ht.
      by apply Forall_cons in Ht as [_ ?].
    + by constructor.
Qed.

Lemma StampedBefore_NoDup (coming : list Z) (l : list Obj) :
  StampedBefore coming l → NoDup (ids l).
Proof.
  intros (ts & -> & Hs & _).
  change (map ?f ts) with (f <$> ts). apply NoDup_fmap_2.
  - intros a b Hab. injection Hab as Hab. by apply (inj pretty) in Hab.
  - induction Hs as [|t ts Hs IH Ht]; constructor; [|done].
    intros Hin. rewrite Forall_forall in Ht. specialize (Ht t Hin). lia.
Qed.

Lemma run_stamped (es : list Event) (st : State) :
  StronglySorted Z.lt (confirmTimes es) →
  StampedBefore (confirmTimes es) (calendarEvents st)
  ∧ StampedBefore (confirmTimes es) (recurringTasks st)
  ∧ StampedBefore (confirmTimes es) (paymentHistory st)
  ∧ StampedBefore (confirmTimes es) (goals st) →
  StampedBefore [] (calendarEvents (run es st))
  ∧ StampedBefore [] (recurringTasks (run es st))
  ∧ StampedBefore [] (paymentHistory (run es st))
  ∧ StampedBefore [] (goals (run es st)).
Proof.
  revert st. induction es as [|e es IH]; intros st Hclock Hst; [done|].
  simpl. pose proof (step_collections st e) as Hsame.
  destruct e as [text result|taskId cur|now today f|f|now0];
    try (apply IH; [exact Hclock|];
         unfold collections in Hsame; simpl in Hsame |- *;
         injection Hsame as -> -> -> ->; exact Hst).
  change (confirmTimes (UserConfirms now today f :: es))
    with (now :: confirmTimes es) in *.
  apply IH; [by apply StronglySorted_inv in Hclock as [? _]|].
  destruct Hst as (He & Ht & Hp & Hg).
  destruct (handleConfirm_ids now today f st) as (Ge & Gt & Gp & Gg).
  simpl in *.
  repeat split;
    match goal with
    | G : ids (?c _) = _ ∨ _ |- StampedBefore _ (?c _) =>
        destruct G as [G|G];
        [eapply StampedBefore_ids; [exact G|];
         eapply StampedBefore_later; eassumption
        |eapply StampedBefore_stamp; [exact Hclock| |exact G]; eassumption]
    end.
Qed.

(** Starting from an empty store, when the clock readings of the confirms
    are strictly increasing, no two records of a collection ever share an
    id. *)
Theorem ids_are_unique_under_an_increasing_clock
    (chat : bool) (es : list Event) :
  StronglySorted Z.lt (confirmTimes es) →
  let st := run es (initialState [] [] [] [] chat) in
  NoDup (ids (calendarEvents st))
  ∧ NoDup (ids (recurringTasks st))
  ∧ NoDup (ids (paymentHistory st))
  ∧ NoDup (ids (goals st)).
Proof.
  intros Hclock. simpl.
  assert (Hempty : StampedBefore (confirmTimes es) []).
  { exists []. repeat split; constructor. }
  destruct (run_stamped es (initialState [] [] [] [] chat) Hclock)
    as (He & Ht & Hp & Hg); [by repeat split|].
  repeat split; by eapply StampedBefore_NoDup.
Qed.
End CommitFacts.

(** ** The further properties at concrete inputs *)

(** With the goal slot cut short and the other slots empty, every loader
    returns the empty collection. *)
Lemma loaders_return_empty_at_corrupt_storage :
  @loadEventsFromLocalStorage storeHost noon_0307 corruptStorage = []
  ∧ @loadRecurringTasksFromLocalStorage storeHost corruptStorage = []
  ∧ @loadPaymentHistoryFromLocalStorage storeHost corruptStorage = []
  ∧ @loadGoalsFromLocalStorage storeHost date_0307 corruptStorage = [].
Proof.
  apply (@loaders_return_empty_when_nothing_parses storeHost).
  intros key s Hs. unfold corruptStorage in Hs.
  apply lookup_singleton_Some in Hs as [_ <-]. reflexivity.
Defined.

(** The stored calendar at noon of 2025-03-07: the past event and the one
    that does not parse are dropped. *)
Lemma loadEvents_at_stored_calendar :
  @loadEventsFromLocalStorage storeHost noon_0307 fullStorage
  ≡ₚ List.filter (@notPast storeHost noon_0307) storedEvents.
Proof.
  apply (@loadEvents_drops_past_and_sorts storeHost noon_0307 fullStorage
           "events.json" storedEvents).
  - vm_compute. reflexivity.
  - reflexivity.
Defined.

Example loadEvents_evaluated :
  @loadEventsFromLocalStorage storeHost noon_0307 fullStorage
  = [dentistEvent; checkupEvent].
Proof. vm_compute. reflexivity. Qed.

(** The stored payments: both kept. *)
Lemma loadPaymentHistory_at_stored_payments :
  @loadPaymentHistoryFromLocalStorage storeHost fullStorage ≡ₚ storedPayments.
Proof.
  apply (@loadPaymentHistory_keeps_all_most_recent_first storeHost fullStorage
           "payments.json" storedPayments).
  - vm_compute. reflexivity.
  - reflexivity.
Defined.

Example loadPaymentHistory_evaluated :
  @loadPaymentHistoryFromLocalStorage storeHost fullStorage
  = [powerPayment; rentPayment].
Proof. vm_compute. reflexivity. Qed.

(** The stored goals on 2025-03-07. *)
Lemma loadGoals_at_stored_goals :
  @loadGoalsFromLocalStorage storeHost date_0307 fullStorage
  ≡ₚ map (withGoalDefaults date_0307) storedGoals.
Proof.
  apply (@loadGoals_fills_defaults_and_sorts storeHost date_0307 fullStorage
           "goals.json" storedGoals).
  - discriminate.
  - vm_compute. reflexivity.
  - reflexivity.
Defined.

Example loadGoals_evaluated :
  map (λ g : Obj, (get g "id", get g "progress", get g "status",
                   get g "creationDate"))
      (@loadGoalsFromLocalStorage storeHost date_0307 fullStorage)
  = [(JStr "g2", JNum 40, JStr "in-progress", JStr "2025-03-01");
     (JStr "g1", JNum 0, JStr "not-started", JStr "2025-03-07")].
Proof. vm_compute. reflexivity. Qed.

(** The two stored tasks, saved and loaded back. *)
Lemma saved_tasks_load_back_at_two_tasks :
  @loadRecurringTasksFromLocalStorage storeHost
    (@saveRecurringTasksToLocalStorage storeSerializer
       [waterPlants; legacyTask] fullStorage)
  = map (λ t : Obj,
           <["completed" := nullish (get t "completed") (JBool false)]> t)
        [waterPlants; legacyTask].
Proof.
  apply (@saved_tasks_load_back storeHost storeSerializer
           [waterPlants; legacyTask] "tasks.json" fullStorage); reflexivity.
Defined.


Example goal_scan_evaluated :
  @getUpcomingGoalReminders storeHost noon_0307 storedGoals 7 = [thesisGoal]
  ∧ @getUpcomingGoalReminders storeHost 1743595200000 storedGoals 7
    = storedGoals.
Proof. split; vm_compute; reflexivity. Qed.

(** After the reminder for the plants was posted and the model said more,
    a later scan on the same day posts nothing. *)
Lemma posted_reminders_at_plant_store :
  let st1 := @checkAndPostReminders fixtureHost noon_0307 plantStore in
  let st' := setMessages (λ ms, ms ++ [aiMessage "Anything else?"]) st1 in
  @checkAndPostReminders fixtureHost noon_0307 st' = st'.
Proof.
  intros st1 st'.
  assert (Ht : recurringTasks st' = recurringTasks plantStore)
    by (vm_compute; reflexivity).
  assert (Hg : goals st' = goals plantStore) by (vm_compute; reflexivity).
  apply (proj1 (@posted_reminders_are_never_repeated fixtureHost noon_0307
                  plantStore st' [aiMessage "Anything else?"] Ht Hg)).
  reflexivity.
Defined.

(** The dentist's appointment is confirmed and the model answers. *)
Lemma confirm_reports_once_at_dentist :
  ∃ m, messages (@handleConfirm fixtureHost noon_0307 date_0307
                   (FollowUpText (Some "Booked.")) dentistPending)
       = messages dentistPending ++ [m]
       ∧ role m = AI
       ∧ ∀ answer, FollowUpText (Some "Booked.") = FollowUpText (Some answer) →
                   answer ≠ EmptyString → content m = answer.
Proof.
  apply (proj1 (@confirm_reports_once_or_stays_silent fixtureHost noon_0307
                  date_0307 (FollowUpText (Some "Booked.")) dentistPending
                  (eventDraft dentistArgs) event eq_refl eq_refl eq_refl)).
  - reflexivity.
  - by eexists.
Defined.

(** Without a chat session the appointment is stored and nothing is said. *)
Example confirm_without_session_is_silent :
  let pending := @sendMessage fixtureHost "Book the dentist"
                   (answers dentistCall) (initialState [] [] [] [] false) in
  let st' := @handleConfirm fixtureHost noon_0307 date_0307
               (FollowUpText (Some "Booked.")) pending in
  messages st' = messages pending ∧ calendarEvents st' = [dentistEvent].
Proof. split; vm_compute; reflexivity. Qed.

(** The model asks for a function the coordinator does not know. *)
Lemma unknown_function_call_at_input :
  let st' := @sendMessage fixtureHost "Wipe my data"
               (Responds (callOf unknownCall)) emptyStore in
  pendingActionDetails st' = pendingActionDetails emptyStore
  ∧ pendingActionType st' = pendingActionType emptyStore
  ∧ pendingFunctionCall st' = pendingFunctionCall emptyStore
  ∧ showConfirmationDialog st' = showConfirmationDialog emptyStore
  ∧ collections st' = collections emptyStore
  ∧ loading st' = false
  ∧ ∃ notice,
      messages st'
      = messages emptyStore
        ++ [ {| role := User; content := "Wipe my data";
                groundingSources := None |}; aiMessage notice ].
Proof.
  apply (@unknown_function_call_opens_no_dialog fixtureHost "Wipe my data"
           (callOf unknownCall) unknownCall [] emptyStore).
  - split; [by vm_compute|reflexivity].
  - reflexivity.
  - intros name Hname. injection Hname as <-. reflexivity.
Defined.

(** The model asks for a goal without an argument object. *)
Lemma function_call_without_arguments_at_input :
  let st' := @sendMessage fixtureHost "Set me a goal"
               (Responds (callOf bareCall)) emptyStore in
  pendingActionDetails st' = pendingActionDetails emptyStore
  ∧ pendingActionType st' = pendingActionType emptyStore
  ∧ showConfirmationDialog st' = showConfirmationDialog emptyStore
  ∧ collections st' = collections emptyStore
  ∧ loading st' = false
  ∧ is_Some (error st')
  ∧ messages st'
    = messages emptyStore
      ++ [ {| role := User; content := "Set me a goal";
              groundingSources := None |};
           aiMessage ("I'm sorry, I encountered an error: "
                        +:+ @TypeError_destructure fixtureHost +:+ ".") ].
Proof.
  apply (@function_call_without_arguments_is_reported fixtureHost
           "Set me a goal" "createGoal" (callOf bareCall) bareCall [] goal
           goalDraft emptyStore).
  - split; [by vm_compute|reflexivity].
  - reflexivity.
  - reflexivity.
  - reflexivity.
  - reflexivity.
Defined.

(** The marathon is marked completed: the thesis, still in the scan, is
    another goal. *)
Lemma closing_the_marathon_leaves_the_thesis :
  strict_eq (get thesisGoal "id") (JStr "g1") = false.
Proof.
  apply (@closing_a_goal_silences_its_reminders storeHost (JStr "g1")
           GoalStatus_Completed goalStore 1743595200000 7 thesisGoal).
  - by left.
  - vm_compute. left. reflexivity.
Defined.

Example closing_the_marathon_evaluated :
  @getUpcomingGoalReminders storeHost 1743595200000
    (goals (handleUpdateGoalStatus (JStr "g1") GoalStatus_Completed goalStore)) 7
  = [thesisGoal].
Proof. vm_compute. reflexivity. Qed.

(** The prompt for the plants task, whose checkbox is unchecked. *)
Lemma toggle_prompt_at_scenario_C :
  @getConfirmationMessage fixtureHost plantTogglePending
  = "Are you sure you want to mark " +:+ dq +:+ "Water plants" +:+ dq
      +:+ " as completed?".
Proof.
  exact (@toggle_prompt_names_the_new_state fixtureHost (JStr "1")
           (JBool false) plantStore waterPlants eq_refl).
Defined.

(** The plants task toggled and confirmed, then toggled back and
    confirmed. *)
Lemma toggling_twice_at_scenario_C :
  let st1 := @handleConfirm fixtureHost noon_0307 date_0307 (FollowUpText None)
               (@handleToggleTaskCompletion fixtureHost (JStr "1")
                  (JBool false) plantStore) in
  let st2 := @handleConfirm fixtureHost (noon_0307 + 1) date_0307
               (FollowUpText None)
               (@handleToggleTaskCompletion fixtureHost (JStr "1")
                  (JBool (negb false)) st1) in
  recurringTasks st2 = recurringTasks plantStore.
Proof.
  apply (@toggling_twice_restores_the_task_list fixtureHost (JStr "1") false
           plantStore waterPlants).
  - reflexivity.
  - repeat constructor.
Defined.

(** The two appointments confirmed one millisecond apart. *)
Lemma ids_unique_at_two_confirms :
  let st := @run fixtureHost twoConfirms (initialState [] [] [] [] true) in
  NoDup (ids (calendarEvents st))
  ∧ NoDup (ids (recurringTasks st))
  ∧ NoDup (ids (paymentHistory st))
  ∧ NoDup (ids (goals st)).
Proof.
  apply (@ids_are_unique_under_an_increasing_clock fixtureHost true twoConfirms).
  vm_compute. repeat constructor.
Defined.

Example two_confirms_evaluated :
  ids (calendarEvents (@run fixtureHost twoConfirms emptyStore))
  = [JStr "1741348800000"; JStr "1741348800001"].
Proof. vm_compute. reflexivity. Qed.

(** Acts that call no writing handler, on the page of scenario C: each is
    offered when its turn comes, and the collections are as they were. *)
Example noWriter_is_offered :
  @offeredAll fixtureHost noWriter plantPage = true.
Proof. vm_compute. reflexivity. Qed.

Lemma entities_unchanged_by_other_acts :
  collections (app (@performAll fixtureHost noWriter plantPage))
  = collections (app plantPage).
Proof.
  apply (@entities_change_only_at_confirm_or_direct_edit fixtureHost noWriter
           plantPage).
  repeat constructor.
Defined.

(** A message has been sent and the model has not answered: the coordinator
    is busy, the dialog is closed and the call is in flight. *)
Lemma busy_with_call_in_flight :
  let w := @performAll fixtureHost [Sends "Book the dentist"]
             (mounted [] [] [] [] true) in
  loading (app w) = true
  ∧ showConfirmationDialog (app w) = false
  ∧ waiting w.
Proof.
  assert (Hbusy : loading
            (app (@performAll fixtureHost [Sends "Book the dentist"]
                    (mounted [] [] [] [] true))) = true)
    by (vm_compute; reflexivity).
  split; [exact Hbusy|].
  split; [vm_compute; reflexivity|].
  exact (@busy_only_while_waiting fixtureHost [] [] [] [] true
           [Sends "Book the dentist"] Hbusy).
Defined.
